(** * geofrag-dashboard: the data-fetch script [scripts/fetch_data.py]

    A shallow embedding of the script and the properties of its
    aggregation pipeline.

    - Python values are the inductive [value]; a [dict] is an association
      list in insertion order, a [float] is a binary64 ([PrimFloat]).
    - The outside world (HTTP endpoints, the process environment, the
      wall clock) is a record [World] the program reads; what the program
      changes (files, the requests it has sent, how often it has read the
      clock) is the record [State].
    - A function of the script is a computation [M A]: it takes the world
      and a state and gives an outcome (a return value or a raised
      exception) and the state it leaves behind.  What was written before
      an exception is raised stays written.

    Not modelled: console output ([print]), failures of the file system
    ([os.makedirs] and [open] are taken to succeed), limits of resources
    (memory, recursion depth) and exceptions outside [Exception] (a
    keyboard interrupt).  A [str] is a sequence of code points below 256.
    [json.dump(obj, f, indent=2)] is a function of [obj]: a file holds the
    object that was dumped into it. *)

From Stdlib Require Import ZArith String Ascii List Bool Lia.
From Stdlib Require Import PrimFloat FloatOps SpecFloat.
From stdpp Require Import base strings gmap.
Import ListNotations.

Set Warnings "-inexact-float,-register-all".
Local Open Scope string_scope.
Local Open Scope Z_scope.

(** ** Python values *)

Module Py.

Inductive value : Type :=
| VNone
| VBool (b : bool)
| VInt (z : Z)
| VFloat (f : float)
| VStr (s : string)
| VList (l : list value)
| VDict (d : list (value * value)).

(** The exception classes the script can meet; all derive from
    [Exception]. *)
Inductive exn : Type :=
| RequestException
| JSONDecodeError
| TypeError
| AttributeError
| KeyError
| IndexError.

Inductive outcome (A : Type) : Type :=
| Ret (a : A)
| Raise (e : exn).
Arguments Ret {A} a.
Arguments Raise {A} e.

(** [bool(v)] *)
Definition truthy (v : value) : bool :=
  match v with
  | VNone => false
  | VBool b => b
  | VInt z => negb (z =? 0)
  | VFloat f => negb (PrimFloat.eqb f 0)
  | VStr s => negb (String.eqb s EmptyString)
  | VList l => match l with [] => false | _ => true end
  | VDict d => match d with [] => false | _ => true end
  end.

(** *** Numbers *)

(** The integer a float is equal to, when there is one. *)
Definition float_to_Z (f : float) : option Z :=
  match Prim2SF f with
  | S754_zero _ => Some 0
  | S754_finite s m e =>
      let sign := if s then -1 else 1 in
      if 0 <=? e then Some (sign * (Zpos m * 2 ^ e))
      else if (Zpos m mod 2 ^ (- e)) =? 0 then Some (sign * (Zpos m / 2 ^ (- e)))
      else None
  | _ => None
  end.

Definition int_float_eqb (z : Z) (f : float) : bool :=
  match float_to_Z f with
  | Some z' => z =? z'
  | None => false
  end.

Definition as_number (v : value) : option (Z + float) :=
  match v with
  | VBool b => Some (inl (Z.b2z b))
  | VInt z => Some (inl z)
  | VFloat f => Some (inr f)
  | _ => None
  end.

(** Equality of dictionary keys: [True == 1 == 1.0]; the decoder's one
    NaN object is found again by identity. *)
Definition key_eqb (a b : value) : bool :=
  match a, b with
  | VNone, VNone => true
  | VStr s, VStr t => String.eqb s t
  | _, _ =>
      match as_number a, as_number b with
      | Some (inl x), Some (inl y) => x =? y
      | Some (inr f), Some (inr g) => PrimFloat.eqb f g || (is_nan f && is_nan g)
      | Some (inl x), Some (inr f) => int_float_eqb x f
      | Some (inr f), Some (inl x) => int_float_eqb x f
      | _, _ => false
      end
  end.

Definition hashable (v : value) : bool :=
  match v with
  | VList _ | VDict _ => false
  | _ => true
  end.

(** The integer nearest to [n / d] for [0 < d], ties to the even one. *)
Definition round_half_even (n d : Z) : Z :=
  let q := n / d in
  let r := n mod d in
  match (2 * r) ?= d with
  | Lt => q
  | Gt => q + 1
  | Eq => if Z.even q then q else q + 1
  end.

(** [round(x, 2)] on a float: the exact value of [x] is rounded to two
    decimals (ties to even) and the float nearest to that decimal is
    returned; NaN, infinities and zeros round to themselves. *)
Definition float_round2 (x : float) : float :=
  match Prim2SF x with
  | S754_finite s m e =>
      let q := if 0 <=? e then Zpos m * 2 ^ e * 100
               else round_half_even (Zpos m * 100) (2 ^ (- e)) in
      match q with
      | Zpos p =>
          SF2Prim (SFdiv prec emax (S754_finite s p 0) (S754_finite false 100 0))
      | _ => if s then neg_zero else zero
      end
  | _ => x
  end.

(** [round(v, 2)] *)
Definition round2 (v : value) : outcome value :=
  match v with
  | VBool b => Ret (VInt (Z.b2z b))
  | VInt z => Ret (VInt z)
  | VFloat f => Ret (VFloat (float_round2 f))
  | _ => Raise TypeError
  end.

(** *** Containers *)

Definition chars (s : string) : list value :=
  map (fun c => VStr (String c EmptyString)) (list_ascii_of_string s).

(** [len(v)] *)
Definition len (v : value) : outcome Z :=
  match v with
  | VStr s => Ret (Z.of_nat (String.length s))
  | VList l => Ret (Z.of_nat (length l))
  | VDict d => Ret (Z.of_nat (length d))
  | _ => Raise TypeError
  end.

(** [iter(v)]: what a [for] loop runs over. *)
Definition iter (v : value) : outcome (list value) :=
  match v with
  | VStr s => Ret (chars s)
  | VList l => Ret l
  | VDict d => Ret (map fst d)
  | _ => Raise TypeError
  end.

Fixpoint dict_lookup (d : list (value * value)) (k : value) : option value :=
  match d with
  | [] => None
  | (k', v) :: d' => if key_eqb k' k then Some v else dict_lookup d' k
  end.

(** [d[k] = v] on the entries of a dict: an equal key keeps its place and
    its key object, a new key goes last. *)
Fixpoint dict_set (d : list (value * value)) (k v : value) : list (value * value) :=
  match d with
  | [] => [(k, v)]
  | (k', v') :: d' =>
      if key_eqb k' k then (k', v) :: d' else (k', v') :: dict_set d' k v
  end.

Definition setitem (d : list (value * value)) (k v : value)
  : outcome (list (value * value)) :=
  if hashable k then Ret (dict_set d k v) else Raise TypeError.

(** Position [i] of a sequence of [n] elements; a negative index counts
    from the end. *)
Definition position (n : nat) (i : Z) : option nat :=
  let j := if i <? 0 then i + Z.of_nat n else i in
  if (0 <=? j) && (j <? Z.of_nat n) then Some (Z.to_nat j) else None.

Definition seq_item (l : list value) (k : value) : outcome value :=
  match k with
  | VInt _ | VBool _ =>
      let i := match k with VInt z => z | VBool b => Z.b2z b | _ => 0 end in
      match position (length l) i with
      | Some n => match nth_error l n with
                  | Some v => Ret v
                  | None => Raise IndexError
                  end
      | None => Raise IndexError
      end
  | _ => Raise TypeError
  end.

(** [v[k]] *)
Definition getitem (v k : value) : outcome value :=
  match v with
  | VDict d =>
      if hashable k then
        match dict_lookup d k with
        | Some x => Ret x
        | None => Raise KeyError
        end
      else Raise TypeError
  | VList l => seq_item l k
  | VStr s => seq_item (chars s) k
  | _ => Raise TypeError
  end.

(** [v.get(k)] for a string [k]: only a dict has the method. *)
Definition get (v : value) (k : string) : outcome value :=
  match v with
  | VDict d => Ret (default VNone (dict_lookup d (VStr k)))
  | _ => Raise AttributeError
  end.

Fixpoint is_substring (p s : string) : bool :=
  String.prefix p s ||
  match s with
  | EmptyString => false
  | String _ s' => is_substring p s'
  end.

(** [k in v] for a string [k] *)
Definition str_in (k : string) (v : value) : outcome bool :=
  match v with
  | VDict d => Ret (existsb (fun kv => key_eqb (fst kv) (VStr k)) d)
  | VList l => Ret (existsb (fun x => match x with
                                      | VStr t => String.eqb t k
                                      | _ => false
                                      end) l)
  | VStr s => Ret (is_substring k s)
  | _ => Raise TypeError
  end.

(** A dict literal with string keys. *)
Definition dict (entries : list (string * value)) : value :=
  VDict (map (fun kv => (VStr (fst kv), snd kv)) entries).

Definition strs (l : list string) : value := VList (map VStr l).
Definition ints (l : list Z) : value := VList (map VInt l).

(** The value under a path of string keys. *)
Fixpoint get_path (p : list string) (v : value) : option value :=
  match p with
  | [] => Some v
  | k :: p' =>
      match v with
      | VDict d =>
          match dict_lookup d (VStr k) with
          | Some x => get_path p' x
          | None => None
          end
      | _ => None
      end
  end.

End Py.
Import Py.

(** ** The world and the state *)

Record Request : Type := {
  url : string;
  params : list (string * string)
}.

Record Response : Type := {
  ok : bool;                    (* response.ok *)
  json_body : option value      (* response.json(); None: the body is not JSON *)
}.

Inductive http_result : Type :=
| Responds (r : Response)
| Fails (e : exn).

Record World : Type := {
  http : Request -> http_result;      (* requests.get *)
  environ : string -> option string;  (* os.environ.get *)
  clock : nat -> string               (* the n-th datetime.now().isoformat() *)
}.

Inductive file : Type :=
| JsonFile (v : value)
| TextFile (s : string).

Record State : Type := {
  files : gmap string file;
  sent : list Request;
  ticks : nat
}.

Definition initial : State := {| files := ∅; sent := []; ticks := 0 |}.

(** ** Computations *)

Definition M (A : Type) : Type := World -> State -> outcome A * State.

Definition ret {A} (a : A) : M A := fun _ s => (Ret a, s).

Definition bind {A B} (m : M A) (k : A -> M B) : M B := fun w s =>
  match m w s with
  | (Ret a, s') => k a w s'
  | (Raise e, s') => (Raise e, s')
  end.

Definition lift {A} (o : outcome A) : M A := fun _ s => (o, s).

(** [try: body  except Exception as e: handler e] *)
Definition try_except {A} (body : M A) (handler : exn -> M A) : M A := fun w s =>
  match body w s with
  | (Ret a, s') => (Ret a, s')
  | (Raise e, s') => handler e w s'
  end.

Declare Scope py_scope.
Delimit Scope py_scope with py.
Notation "'let*' x ':=' m 'in' k" := (bind m (fun x => k))
  (at level 10, x pattern, m at level 100, k at level 200) : py_scope.
Local Open Scope py_scope.

(** [for x in l: acc = body x acc] *)
Fixpoint for_each {A B} (l : list A) (body : A -> B -> M B) (acc : B) : M B :=
  match l with
  | [] => ret acc
  | x :: l' => let* acc' := body x acc in for_each l' body acc'
  end.

(** [requests.get(url, params=params, timeout=30)] *)
Definition requests_get (r : Request) : M Response := fun w s =>
  let s' := {| files := files s; sent := (sent s ++ [r])%list; ticks := ticks s |} in
  match http w r with
  | Responds resp => (Ret resp, s')
  | Fails e => (Raise e, s')
  end.

(** [response.json()] *)
Definition response_json (r : Response) : M value :=
  lift (match json_body r with
        | Some v => Ret v
        | None => Raise JSONDecodeError
        end).

(** [os.environ.get(name)] *)
Definition environ_get (name : string) : M (option string) :=
  fun w s => (Ret (environ w name), s).

(** [datetime.now().isoformat()] *)
Definition now_isoformat : M string := fun w s =>
  (Ret (clock w (ticks s)),
   {| files := files s; sent := sent s; ticks := S (ticks s) |}).

(** [with open(path, 'w') as f: json.dump(obj, f, indent=2)] *)
Definition json_dump (path : string) (obj : value) : M unit := fun _ s =>
  (Ret tt,
   {| files := <[path := JsonFile obj]> (files s); sent := sent s; ticks := ticks s |}).

(** [with open(path, 'w') as f: f.write(text)] *)
Definition write_text (path : string) (text : string) : M unit := fun _ s =>
  (Ret tt,
   {| files := <[path := TextFile text]> (files s); sent := sent s; ticks := ticks s |}).

(** ** The script *)

Definition get_request (u : string) : Request := {| url := u; params := [] |}.

(** The loop body [if item.get('value'): values[item['date']] =
    round(item['value'], 2)] of the FDI observations. *)
Definition fdi_observation (item : value) (values : list (value * value))
  : M (list (value * value)) :=
  let* present := lift (get item "value") in
  if truthy present then
    let* raw := lift (getitem item (VStr "value")) in
    let* rounded := lift (round2 raw) in
    let* date := lift (getitem item (VStr "date")) in
    lift (setitem values date rounded)
  else ret values.

(** One turn of [for country_name, country_code in countries.items()]. *)
Definition fdi_country (base_url : string) (country : string * string)
    (fdi_data : list (value * value)) : M (list (value * value)) :=
  let '(country_name, country_code) := country in
  let u := base_url +:+ "country/" +:+ country_code +:+
           "/indicator/BX.KLT.DINV.WD.GD.ZS?format=json&per_page=100&date=2015:2024" in
  let* response := requests_get (get_request u) in
  if ok response then
    let* result := response_json response in
    let* n := lift (len result) in
    if 1 <? n then
      let* observations := lift (getitem result (VInt 1)) in
      let* items := lift (iter observations) in
      let* values := for_each items fdi_observation [] in
      ret (dict_set fdi_data (VStr country_name)
             (dict [("country_code", VStr country_name);
                    ("country_name", VStr country_code);
                    ("values", VDict values)]))
    else ret fdi_data
  else ret fdi_data.

(** The comprehension [[item for item in result[1] if item.get('value')]]. *)
Definition valued_items (items : list value) : M (list value) :=
  for_each items
    (fun item kept =>
       let* present := lift (get item "value") in
       ret (if truthy present then (kept ++ [item])%list else kept))
    [].

(** One turn of [for name, indicator in indicators.items()]. *)
Definition indicator_series (base_url : string) (entry : string * string)
    (data : list (value * value)) : M (list (value * value)) :=
  let '(name, indicator) := entry in
  let u := base_url +:+ "country/all/indicator/" +:+ indicator +:+
           "?format=json&per_page=500&date=2019:2024" in
  let* response := requests_get (get_request u) in
  if ok response then
    let* result := response_json response in
    let* n := lift (len result) in
    if 1 <? n then
      let* observations := lift (getitem result (VInt 1)) in
      let* items := lift (iter observations) in
      let* kept := valued_items items in
      ret (dict_set data (VStr name) (VList kept))
    else ret data
  else ret data.

Definition indicators : list (string * string) :=
  [("trade_gdp_ratio", "NE.TRD.GNFS.ZS");
   ("fdi_inflows", "BX.KLT.DINV.CD.WD");
   ("fdi_gdp_ratio", "BX.KLT.DINV.WD.GD.ZS");
   ("exports", "NE.EXP.GNFS.CD")].

Definition countries : list (string * string) :=
  [("USA", "US"); ("CHN", "CN"); ("EUU", "EU")].

Definition wb_base_url : string := "https://api.worldbank.org/v2/".

Definition fdi_path : string := "data/fdi_gdp_data.json".

(** The object [fdi_gdp_data] once its ['data'] entry holds [data]. *)
Definition fdi_gdp_data (data : list (value * value)) : value :=
  dict [("metadata",
         dict [("source", VStr "World Bank");
               ("indicator", VStr "BX.KLT.DINV.WD.GD.ZS");
               ("description",
                VStr "Foreign direct investment, net inflows (% of GDP)")]);
        ("data", VDict data)].

(** The first loop of [fetch_world_bank_data]. *)
Definition fdi_loop : M (list (value * value)) :=
  for_each countries (fdi_country wb_base_url) [].

(** The second loop of [fetch_world_bank_data]. *)
Definition indicators_loop : M (list (value * value)) :=
  for_each indicators (indicator_series wb_base_url) [].

(** The [try] block of [fetch_world_bank_data]. *)
Definition world_bank_body : M value :=
  let* fdi := fdi_loop in
  let* _ := json_dump fdi_path (fdi_gdp_data fdi) in
  let* data := indicators_loop in
  ret (VDict data).

Definition fetch_world_bank_data : M value :=
  try_except world_bank_body (fun e => ret VNone).

Definition fallback_shares : value :=
  dict [("USD", VFloat 59.2); ("EUR", VFloat 20.1); ("CNY", VFloat 12.3);
        ("JPY", VFloat 5.2); ("GBP", VFloat 4.9); ("Other", VFloat 8.3)].

Definition imf_request : Request :=
  get_request "https://www.imf.org/external/datamapper/api/v1/COFER".

(** The [try] block of [fetch_imf_data]; without a successful response
    the function runs off its end and returns [None]. *)
Definition imf_body : M value :=
  let* response := requests_get imf_request in
  if ok response then
    let* data := response_json response in
    let currency_shares := fallback_shares in
    let* has_values := lift (str_in "values" data) in
    let* _ := (if has_values then ret tt (* pass *) else ret tt) in
    ret currency_shares
  else ret VNone.

Definition fetch_imf_data : M value :=
  try_except imf_body (fun e => ret VNone).

Definition agreements : value :=
  dict [("USMCA", strs ["USA"; "CAN"; "MEX"]);
        ("EU", strs ["DEU"; "FRA"; "ITA"; "ESP"; "NLD"; "POL"; "BEL"; "GRC";
                     "PRT"; "CZE"]);
        ("RCEP", strs (["CHN"; "JPN"; "KOR"; "AUS"; "NZL"] ++
                       ["SGP"; "MYS"; "THA"; "IDN"; "PHL"])%list);
        ("ASEAN", strs ["SGP"; "MYS"; "THA"; "IDN"; "PHL"; "VNM"; "MMR"; "KHM";
                        "LAO"; "BRN"]);
        ("Mercosur", strs ["BRA"; "ARG"; "URY"; "PRY"]);
        ("AfCFTA", strs ["NGA"; "EGY"; "ZAF"; "ETH"; "KEN"; "GHA"; "TZA"; "UGA"])].

Definition trade_shares : list (string * Z) :=
  [("USMCA", 24); ("EU", 21); ("RCEP", 28); ("ASEAN", 12); ("Mercosur", 5);
   ("AfCFTA", 3); ("Other", 7)].

(** What [fetch_trade_agreements] returns when the clock reads [updated]. *)
Definition trade_table (updated : string) : value :=
  dict [("agreements", agreements);
        ("trade_shares", dict (map (fun kv => (fst kv, VInt (snd kv))) trade_shares));
        ("updated", VStr updated)].

Definition fetch_trade_agreements : M value :=
  let* updated := now_isoformat in
  ret (trade_table updated).

(** What [calculate_fragmentation_metrics] returns when the clock reads
    [timestamp]. *)
Definition metrics_record (timestamp : string) : value :=
  dict [("timestamp", VStr timestamp);
        ("fragmentation_index", VFloat 0.673);
        ("regional_trade_percentage", VInt 61);
        ("supply_chain_regionalization",
         dict [("years", ints [2019; 2020; 2021; 2022; 2023; 2024]);
               ("regional", ints [45; 48; 52; 55; 58; 61]);
               ("global", ints [55; 52; 48; 45; 42; 39])]);
        ("tech_decoupling_scores",
         dict [("semiconductors", VInt 72); ("telecom", VInt 68); ("ai", VInt 61);
               ("quantum", VInt 83); ("biotech", VInt 45)]);
        ("sanctions_count",
         dict [("total", VInt 3247);
               ("by_year", ints [1250; 1680; 2340; 2890; 3247]);
               ("years", ints [2020; 2021; 2022; 2023; 2024])])].

Definition calculate_fragmentation_metrics (wb_data trade_agreements : value)
  : M value :=
  let* timestamp := now_isoformat in
  ret (metrics_record timestamp).

Definition fred_series : list (string * string) :=
  [("GEPUCURRENT", "Global Economic Policy Uncertainty");
   ("USEPUINDXD", "US Economic Policy Uncertainty")].

Definition fred_base_url : string :=
  "https://api.stlouisfed.org/fred/series/observations".

Definition fred_request (api_key series_id : string) : Request :=
  {| url := fred_base_url;
     params := [("series_id", series_id); ("api_key", api_key);
                ("file_type", "json"); ("observation_start", "2020-01-01")] |}.

(** One turn of [for series_id, name in series.items()]. *)
Definition fred_observations (api_key : string) (entry : string * string)
    (data : list (value * value)) : M (list (value * value)) :=
  let '(series_id, name) := entry in
  let* response := requests_get (fred_request api_key series_id) in
  if ok response then
    let* body := response_json response in
    ret (dict_set data (VStr series_id) body)
  else ret data.

(** The [try] block of [fetch_fred_data]. *)
Definition fred_body : M value :=
  let* api_key := environ_get "FRED_API_KEY" in
  match api_key with
  | None => ret VNone
  | Some key =>
      if String.eqb key EmptyString then ret VNone   (* [not api_key] *)
      else
        let* data := for_each fred_series (fred_observations key) [] in
        ret (VDict data)
  end.

Definition fetch_fred_data : M value :=
  try_except fred_body (fun e => ret VNone).

Definition dq : string := String (ascii_of_nat 34) EmptyString.
Definition nl : string := String (ascii_of_nat 10) EmptyString.

Definition index_content : string :=
  "<!DOCTYPE html>" +:+ nl +:+
  "<html>" +:+ nl +:+
  "<head>" +:+ nl +:+
  "    <meta charset=" +:+ dq +:+ "UTF-8" +:+ dq +:+ ">" +:+ nl +:+
  "    <meta name=" +:+ dq +:+ "viewport" +:+ dq +:+ " content=" +:+ dq +:+
  "width=device-width, initial-scale=1.0" +:+ dq +:+ ">" +:+ nl +:+
  "    <title>Geoeconomic Fragmentation Dashboard</title>" +:+ nl +:+
  "    <meta http-equiv=" +:+ dq +:+ "refresh" +:+ dq +:+ " content=" +:+ dq +:+
  "0; url=dashboard.html" +:+ dq +:+ ">" +:+ nl +:+
  "</head>" +:+ nl +:+
  "<body>" +:+ nl +:+
  "    <p>Loading dashboard...</p>" +:+ nl +:+
  "</body>" +:+ nl +:+
  "</html>".

Definition create_index_file : M unit := write_text "index.html" index_content.

Definition primary_path : string := "data/fragmentation_data.json".
Definition trade_blocs_path : string := "data/trade_blocs.json".
Definition metrics_path : string := "data/metrics.json".

(** [x or y] *)
Definition py_or (x y : value) : value := if truthy x then x else y.

(** The dict [master_data] of [main]. *)
Definition master_data (last_updated : string)
    (wb_data imf_data trade_data fred_data metrics : value) : value :=
  dict [("metadata",
         dict [("last_updated", VStr last_updated);
               ("sources", strs ["World Bank"; "IMF"; "FRED"; "Calculated"]);
               ("status", VStr "success")]);
        ("trade_blocs", trade_data);
        ("currency_shares", py_or imf_data fallback_shares);
        ("fragmentation_metrics", metrics);
        ("world_bank_indicators", if truthy wb_data then wb_data else dict []);
        ("economic_uncertainty", if truthy fred_data then fred_data else dict [])].

Definition main : M unit :=
  let* wb_data := fetch_world_bank_data in
  let* imf_data := fetch_imf_data in
  let* trade_data := fetch_trade_agreements in
  let* fred_data := fetch_fred_data in
  let* metrics := calculate_fragmentation_metrics wb_data trade_data in
  let* last_updated := now_isoformat in
  let master := master_data last_updated wb_data imf_data trade_data fred_data metrics in
  let* _ := json_dump primary_path master in
  let* _ := json_dump trade_blocs_path trade_data in
  let* _ := json_dump metrics_path metrics in
  let* _ := now_isoformat in     (* the clock reading of the closing message *)
  create_index_file.

(** ** Notions used in the statements *)

(** A computation is quiet when it writes no file and does not read the
    clock. *)
Definition quiet {X} (m : M X) : Prop :=
  forall w s, files (snd (m w s)) = files s /\ ticks (snd (m w s)) = ticks s.

(** Two worlds answer alike when every request gets the same answer and
    the credential is the same; their clocks may differ. *)
Definition same_responses (w1 w2 : World) : Prop :=
  (forall r, http w1 r = http w2 r) /\
  environ w1 "FRED_API_KEY" = environ w2 "FRED_API_KEY".

(** The outcome of a stable computation is decided by the answers of the
    world alone: not by the state it starts in, not by the clock. *)
Definition stable {X} (m : M X) : Prop :=
  forall w1 w2 s1 s2, same_responses w1 w2 -> fst (m w1 s1) = fst (m w2 s2).

(** The JSON object a file holds. *)
Definition read_json (path : string) (s : State) : option value :=
  match files s !! path with
  | Some (JsonFile v) => Some v
  | _ => None
  end.

(** The dict [v] without its key [k]. *)
Definition without (k : string) (v : value) : value :=
  match v with
  | VDict d => VDict (filter (fun kv => negb (key_eqb (fst kv) (VStr k))) d)
  | _ => v
  end.

Definition keys (v : value) : list value :=
  match v with
  | VDict d => map fst d
  | _ => []
  end.

(** [v] with the value under the path [p] replaced by [x]. *)
Fixpoint set_path (p : list string) (x : value) (v : value) : value :=
  match p with
  | [] => x
  | k :: p' =>
      match v with
      | VDict d =>
          match dict_lookup d (VStr k) with
          | Some sub => VDict (dict_set d (VStr k) (set_path p' x sub))
          | None => v
          end
      | _ => v
      end
  end.

(** The fields of the master record that hold a reading of the clock. *)
Definition timestamp_fields : list (list string) :=
  [["metadata"; "last_updated"];
   ["trade_blocs"; "updated"];
   ["fragmentation_metrics"; "timestamp"]].

Definition erase_timestamps (master : value) : value :=
  foldr (fun p m => set_path p VNone m) master timestamp_fields.

(** The two records differ in the field under the path [p]; a field is a
    value that is not itself a dict or a list. *)
Definition differ_at (p : list string) (m1 m2 : value) : Prop :=
  exists v1 v2,
    get_path p m1 = Some v1 /\ get_path p m2 = Some v2 /\ v1 <> v2 /\
    hashable v1 = true /\ hashable v2 = true.

Definition at_most_one_field_differs (m1 m2 : value) : Prop :=
  forall p q, differ_at p m1 m2 -> differ_at q m1 m2 -> p = q.

(** The value a computation returned, if it returned. *)
Definition returned {A} (o : outcome A) : option A :=
  match o with
  | Ret a => Some a
  | Raise _ => None
  end.

(** The members of the "EU" bloc. *)
Definition eu_members : list string :=
  ["DEU"; "FRA"; "ITA"; "ESP"; "NLD"; "POL"; "BEL"; "GRC"; "PRT"; "CZE"].

(** ** Scenarios *)

Module Scenario.

(** A clock whose n-th reading is the n-th second of one minute. *)
Definition seconds (n : nat) : string :=
  "2024-05-17T06:00:" +:+
  String (ascii_of_nat (48 + n / 10)) (String (ascii_of_nat (48 + n mod 10)) EmptyString).

(** No network and no credential. *)
Definition offline : World :=
  {| http := fun _ => Fails RequestException;
     environ := fun _ => None;
     clock := seconds |}.

(** The same, an hour later. *)
Definition offline_later : World :=
  {| http := fun _ => Fails RequestException;
     environ := fun _ => None;
     clock := fun n => "2024-05-17T07:00:00" |}.

Definition observation (date : string) (v : value) : value :=
  dict [("date", VStr date); ("value", v)].

(** A World Bank answer: the envelope and three observations, of which
    one has the value 0 and one has none. *)
Definition wb_answer : value :=
  VList [dict [("page", VInt 1); ("pages", VInt 1)];
         VList [observation "2020" (VInt 0);
                observation "2021" (VFloat 1.7896416);
                observation "2022" VNone]].

Definition answers (body : value) : Response :=
  {| ok := true; json_body := Some body |}.

(** Every endpoint answers, and the credential is set. *)
Definition online : World :=
  {| http := fun r =>
       if String.prefix wb_base_url (url r) then Responds (answers wb_answer)
       else Responds (answers (dict [("observations", VList [])]));
     environ := fun name =>
       if String.eqb name "FRED_API_KEY" then Some "secret" else None;
     clock := seconds |}.

(** As [online], but every World Bank request fails in transport. *)
Definition world_bank_down : World :=
  {| http := fun r =>
       if String.prefix wb_base_url (url r) then Fails RequestException
       else Responds (answers (dict [("observations", VList [])]));
     environ := environ online;
     clock := seconds |}.

(** As [online], but the IMF endpoint answers with a body that is not
    JSON. *)
Definition imf_garbled : World :=
  {| http := fun r =>
       if String.eqb (url r) (url imf_request)
       then Responds {| ok := true; json_body := None |}
       else http online r;
     environ := environ online;
     clock := seconds |}.

End Scenario.

(** ** Further notions *)

(** The request of one turn of the first loop of [fetch_world_bank_data]. *)
Definition country_request (country : string * string) : Request :=
  get_request
    (wb_base_url +:+ "country/" +:+ snd country +:+
     "/indicator/BX.KLT.DINV.WD.GD.ZS?format=json&per_page=100&date=2015:2024").

(** The request of one turn of its second loop. *)
Definition indicator_request (entry : string * string) : Request :=
  get_request
    (wb_base_url +:+ "country/all/indicator/" +:+ snd entry +:+
     "?format=json&per_page=500&date=2019:2024").

Definition world_bank_requests : list Request :=
  (map country_request countries ++ map indicator_request indicators)%list.

(** The requests of [fetch_fred_data] under the credential [api_key]. *)
Definition fred_requests (api_key : option string) : list Request :=
  match api_key with
  | None => []
  | Some key =>
      if String.eqb key EmptyString then []
      else map (fun entry => fred_request key (fst entry)) fred_series
  end.

(** What tells two requests of a run apart: the address and the first
    parameter. *)
Definition request_tag (r : Request) : string * option string :=
  (url r, snd <$> head (params r)).

(** In the world [w] the computation [m] sends the requests [l], in this
    order: all of them when it returns, the first few when it raises. *)
Definition sends {A} (w : World) (m : M A) (l : list Request) : Prop :=
  forall s, exists l',
    sent (snd (m w s)) = (sent s ++ l')%list /\
    l' `prefix_of` l /\
    (forall a, fst (m w s) = Ret a -> l' = l).

(** A computation is inert when it leaves the state as it is. *)
Definition inert {A} (m : M A) : Prop := forall w s, snd (m w s) = s.

(** The loop body of the FDI observations raises on [item]: the item is no
    dict, or its value is truthy and is no number, or its value is truthy
    and it has no date, or one that cannot be a key. *)
Definition malformed_observation (item : value) : bool :=
  match get item "value" with
  | Raise _ => true
  | Ret v =>
      truthy v &&
      match round2 v with
      | Raise _ => true
      | Ret _ =>
          match getitem item (VStr "date") with
          | Raise _ => true
          | Ret date => negb (hashable date)
          end
      end
  end.

Definition is_dict (v : value) : bool :=
  match v with
  | VDict _ => true
  | _ => false
  end.

(** [item.get('value')] is truthy, for a dict [item]. *)
Definition has_value (item : value) : bool :=
  match get item "value" with
  | Ret v => truthy v
  | Raise _ => false
  end.

(** An answer the loops of the fetchers pass over without storing
    anything: a status that is not a success or, for the World Bank, a
    JSON container of at most one element. *)
Definition passed_over (r : http_result) : bool :=
  match r with
  | Fails _ => false
  | Responds resp =>
      negb (ok resp) ||
      match json_body resp with
      | Some body => match len body with
                     | Ret n => n <=? 1
                     | Raise _ => false
                     end
      | None => false
      end
  end.

(** An answer on which a loop of a fetcher raises whatever it holds: the
    transport fails, or the status is a success and the body is no JSON. *)
Definition broken (r : http_result) : bool :=
  match r with
  | Fails _ => true
  | Responds resp => ok resp && negb (bool_decide (is_Some (json_body resp)))
  end.

(** What [fetch_fred_data] stores for a series that answered [r]. *)
Definition fred_entry (series_id : string) (r : http_result) : list (value * value) :=
  match r with
  | Responds resp =>
      if ok resp then
        match json_body resp with
        | Some body => [(VStr series_id, body)]
        | None => []
        end
      else []
  | Fails _ => []
  end.

(** The state [s] after the requests [l] were sent. *)
Definition after_requests (s : State) (l : list Request) : State :=
  {| files := files s; sent := sent s ++ l; ticks := ticks s |}.

(** A JSON value [in] can search. *)
Definition container (v : value) : bool :=
  match v with
  | VDict _ | VList _ | VStr _ => true
  | _ => false
  end.

Definition is_number (v : value) : bool :=
  match v with
  | VInt _ | VFloat _ => true
  | _ => false
  end.

(** The files a run may write. *)
Definition output_paths : list string :=
  [fdi_path; primary_path; trade_blocs_path; metrics_path; "index.html"].

(** An entry of the FDI/GDP data as the first loop of
    [fetch_world_bank_data] builds it for a country of [countries]. *)
Definition fdi_entry (entry : value * value) : Prop :=
  exists name code values,
    (name, code) ∈ countries /\
    entry = (VStr name,
             dict [("country_code", VStr name); ("country_name", VStr code);
                   ("values", VDict values)]) /\
    Forall (fun dv => is_number (snd dv) = true) values.

(** ** Further scenarios *)

Module Cases.

Definition envelope : value := dict [("page", VInt 1)].

Definition text_items : list value :=
  [Scenario.observation "2021" (VFloat 1.5);
   Scenario.observation "2022" (VStr "n/a")].

(** As [Scenario.online], but the answer for China holds an observation
    whose value is a text. *)
Definition text_value : World :=
  {| http := fun r =>
       if String.eqb (url r) (url (country_request ("CHN", "CN")))
       then Responds (Scenario.answers (VList [envelope; VList text_items]))
       else http Scenario.online r;
     environ := environ Scenario.online;
     clock := Scenario.seconds |}.

(** The World Bank answers every request with its one-element error
    envelope; the other endpoints are as in [Scenario.online]. *)
Definition error_envelopes : World :=
  {| http := fun r =>
       if String.prefix wb_base_url (url r)
       then Responds (Scenario.answers
              (VList [dict [("message", VList [dict [("id", VStr "120")]])]]))
       else http Scenario.online r;
     environ := environ Scenario.online;
     clock := Scenario.seconds |}.

(** As [Scenario.online], but the last World Bank request, for the
    exports, fails in transport. *)
Definition exports_down : World :=
  {| http := fun r =>
       if String.eqb (url r) (url (indicator_request ("exports", "NE.EXP.GNFS.CD")))
       then Fails RequestException
       else http Scenario.online r;
     environ := environ Scenario.online;
     clock := Scenario.seconds |}.

(** As [Scenario.online], but the second FRED series fails in transport. *)
Definition second_series_down : World :=
  {| http := fun r =>
       if String.eqb (default EmptyString (snd <$> head (params r))) "USEPUINDXD"
       then Fails RequestException
       else http Scenario.online r;
     environ := environ Scenario.online;
     clock := Scenario.seconds |}.

(** As [Scenario.online], but the IMF endpoint answers with a status that
    is not a success and a body that is no JSON (an error page). *)
Definition imf_unavailable : World :=
  {| http := fun r =>
       if String.eqb (url r) (url imf_request)
       then Responds {| ok := false; json_body := None |}
       else http Scenario.online r;
     environ := environ Scenario.online;
     clock := Scenario.seconds |}.

End Cases.

(** ** Reasoning about computations *)

Lemma quiet_ret {A} (a : A) : quiet (ret a).
Proof. by intros w s. Qed.

Lemma quiet_lift {A} (o : outcome A) : quiet (lift o).
Proof. by intros w s. Qed.

Lemma quiet_bind {A B} (m : M A) (k : A -> M B) :
  quiet m -> (forall a, quiet (k a)) -> quiet (bind m k).
Proof.
  intros Hm Hk w s. unfold bind.
  destruct (Hm w s) as [Hf Ht].
  destruct (m w s) as [[a | e] s'] eqn:E; simpl in *.
  - destruct (Hk a w s') as [Hf' Ht']. split; congruence.
  - by split.
Qed.

Lemma quiet_try {A} (m : M A) (h : exn -> M A) :
  quiet m -> (forall e, quiet (h e)) -> quiet (try_except m h).
Proof.
  intros Hm Hh w s. unfold try_except.
  destruct (Hm w s) as [Hf Ht].
  destruct (m w s) as [[a | e] s'] eqn:E; simpl in *.
  - by split.
  - destruct (Hh e w s') as [Hf' Ht']. split; congruence.
Qed.

Lemma quiet_for_each {A B} (l : list A) (body : A -> B -> M B) :
  (forall x acc, quiet (body x acc)) -> forall acc, quiet (for_each l body acc).
Proof.
  intros Hbody. induction l as [| x l IH]; intros acc; simpl.
  - by intros w s.
  - apply quiet_bind; [apply Hbody | apply IH].
Qed.

Lemma stable_ret {A} (a : A) : stable (ret a).
Proof. by intros w1 w2 s1 s2 _. Qed.

Lemma stable_lift {A} (o : outcome A) : stable (lift o).
Proof. by intros w1 w2 s1 s2 _. Qed.

Lemma stable_bind {A B} (m : M A) (k : A -> M B) :
  stable m -> (forall a, stable (k a)) -> stable (bind m k).
Proof.
  intros Hm Hk w1 w2 s1 s2 Hw. unfold bind.
  specialize (Hm w1 w2 s1 s2 Hw).
  destruct (m w1 s1) as [[a1 | e1] s1'], (m w2 s2) as [[a2 | e2] s2'];
    simpl in Hm; simplify_eq; [by apply Hk | done].
Qed.

Lemma stable_try {A} (m : M A) (h : exn -> M A) :
  stable m -> (forall e, stable (h e)) -> stable (try_except m h).
Proof.
  intros Hm Hh w1 w2 s1 s2 Hw. unfold try_except.
  specialize (Hm w1 w2 s1 s2 Hw).
  destruct (m w1 s1) as [[a1 | e1] s1'], (m w2 s2) as [[a2 | e2] s2'];
    simpl in Hm; simplify_eq; [done | by apply Hh].
Qed.

Lemma stable_for_each {A B} (l : list A) (body : A -> B -> M B) :
  (forall x acc, stable (body x acc)) -> forall acc, stable (for_each l body acc).
Proof.
  intros Hbody. induction l as [| x l IH]; intros acc; simpl.
  - by intros w1 w2 s1 s2 _.
  - apply stable_bind; [apply Hbody | apply IH].
Qed.

Lemma quiet_requests_get r : quiet (requests_get r).
Proof. intros w s. unfold requests_get. by destruct (http w r). Qed.

Lemma stable_requests_get r : stable (requests_get r).
Proof.
  intros w1 w2 s1 s2 [Hh _]. unfold requests_get.
  rewrite (Hh r). by destruct (http w2 r).
Qed.

Lemma quiet_response_json r : quiet (response_json r).
Proof. apply quiet_lift. Qed.

Lemma stable_response_json r : stable (response_json r).
Proof. apply stable_lift. Qed.

Lemma quiet_environ_get name : quiet (environ_get name).
Proof. by intros w s. Qed.

Lemma stable_credential : stable (environ_get "FRED_API_KEY").
Proof. intros w1 w2 s1 s2 [_ He]. unfold environ_get. simpl. by rewrite He. Qed.

Lemma stable_json_dump path obj : stable (json_dump path obj).
Proof. by intros w1 w2 s1 s2 _. Qed.

Create HintDb py discriminated.
#[local] Hint Resolve quiet_ret quiet_lift quiet_requests_get quiet_response_json
  quiet_environ_get stable_ret stable_lift stable_requests_get
  stable_response_json stable_credential stable_json_dump : py.

(** Splits a goal [quiet m] or [stable m] along the structure of [m]. *)
Ltac structural :=
  repeat first
    [ progress intros
    | apply quiet_bind | apply quiet_try | apply quiet_for_each
    | apply stable_bind | apply stable_try | apply stable_for_each
    | solve [auto with py]
    | match goal with
      | |- context [let '(_, _) := ?p in _] => destruct p
      | |- context [if ?b then _ else _] => destruct b
      | |- context [match ?o with Some _ => _ | None => _ end] => destruct o
      end ].

(** *** The fetchers, one by one *)

Lemma fdi_loop_quiet : quiet fdi_loop.
Proof. unfold fdi_loop, fdi_country, fdi_observation. structural. Qed.

Lemma fdi_loop_stable : stable fdi_loop.
Proof. unfold fdi_loop, fdi_country, fdi_observation. structural. Qed.

Lemma indicators_loop_quiet : quiet indicators_loop.
Proof. unfold indicators_loop, indicator_series, valued_items. structural. Qed.

Lemma indicators_loop_stable : stable indicators_loop.
Proof. unfold indicators_loop, indicator_series, valued_items. structural. Qed.

Lemma fetch_imf_data_quiet : quiet fetch_imf_data.
Proof. unfold fetch_imf_data, imf_body. structural. Qed.

Lemma fetch_imf_data_stable : stable fetch_imf_data.
Proof. unfold fetch_imf_data, imf_body. structural. Qed.

Lemma fetch_fred_data_quiet : quiet fetch_fred_data.
Proof. unfold fetch_fred_data, fred_body, fred_observations. structural. Qed.

Lemma fetch_fred_data_stable : stable fetch_fred_data.
Proof. unfold fetch_fred_data, fred_body, fred_observations. structural. Qed.

Lemma fetch_world_bank_data_stable : stable fetch_world_bank_data.
Proof.
  unfold fetch_world_bank_data, world_bank_body.
  apply stable_try; [| structural].
  apply stable_bind; [apply fdi_loop_stable |]. intros fdi.
  apply stable_bind; [apply stable_json_dump |]. intros _.
  apply stable_bind; [apply indicators_loop_stable |]. structural.
Qed.

Arguments fetch_world_bank_data : simpl never.
Arguments fetch_imf_data : simpl never.
Arguments fetch_fred_data : simpl never.
Arguments fdi_loop : simpl never.
Arguments indicators_loop : simpl never.

Lemma same_responses_refl w : same_responses w w.
Proof. by split. Qed.

(** In one world a stable computation has one outcome, whatever state it
    starts in. *)
Lemma stable_state {A} (m : M A) w s s' : stable m -> fst (m w s) = fst (m w s').
Proof. intros Hm. apply Hm, same_responses_refl. Qed.

(** An exception of the [try] block ends as [None]; a value is passed
    through. *)
Lemma try_none (body : M value) w s :
  try_except body (fun _ => ret VNone) w s =
    match body w s with
    | (Ret v, s') => (Ret v, s')
    | (Raise _, s') => (Ret VNone, s')
    end.
Proof. unfold try_except, ret. by destruct (body w s) as [[v | e] s']. Qed.

Lemma world_bank_body_value w s v :
  fst (world_bank_body w s) = Ret v -> exists d, v = VDict d.
Proof.
  unfold world_bank_body, bind, json_dump, ret.
  destruct (fdi_loop w s) as [[fdi | e] s1]; [| done].
  destruct (indicators_loop w _) as [[d | e] s2]; [| done].
  simpl. intros ?; simplify_eq. by exists d.
Qed.

Lemma imf_body_value w s v :
  fst (imf_body w s) = Ret v -> v = VNone \/ v = fallback_shares.
Proof.
  unfold imf_body, bind, requests_get, response_json, lift, ret.
  destruct (http w imf_request) as [resp | e]; [| done].
  destruct (ok resp); [| simpl; intros ?; simplify_eq; by left].
  destruct (json_body resp) as [data |]; [| done].
  destruct (str_in "values" data) as [[] | e]; simpl; intros ?; simplify_eq;
    by right.
Qed.

Lemma fred_body_value w s v :
  fst (fred_body w s) = Ret v -> v = VNone \/ exists d, v = VDict d.
Proof.
  unfold fred_body, bind, environ_get, ret.
  destruct (environ w "FRED_API_KEY") as [key |];
    [| simpl; intros ?; simplify_eq; by left].
  destruct (String.eqb key EmptyString); [simpl; intros ?; simplify_eq; by left |].
  destruct (for_each fred_series (fred_observations key) [] w s) as [[d | e] s'];
    [| done].
  simpl. intros ?; simplify_eq. right. by exists d.
Qed.

Lemma fetch_world_bank_data_run w s :
  exists v, fst (fetch_world_bank_data w s) = Ret v /\
            (v = VNone \/ exists d, v = VDict d).
Proof.
  unfold fetch_world_bank_data. rewrite try_none.
  pose proof (world_bank_body_value w s) as Hv.
  destruct (world_bank_body w s) as [[v | e] s']; simpl in *; eauto.
Qed.

Lemma fetch_imf_data_run w s :
  exists v, fst (fetch_imf_data w s) = Ret v /\ (v = VNone \/ v = fallback_shares).
Proof.
  unfold fetch_imf_data. rewrite try_none.
  pose proof (imf_body_value w s) as Hv.
  destruct (imf_body w s) as [[v | e] s']; simpl in *; eauto.
Qed.

Lemma fetch_fred_data_run w s :
  exists v, fst (fetch_fred_data w s) = Ret v /\
            (v = VNone \/ exists d, v = VDict d).
Proof.
  unfold fetch_fred_data. rewrite try_none.
  pose proof (fred_body_value w s) as Hv.
  destruct (fred_body w s) as [[v | e] s']; simpl in *; eauto.
Qed.

(** The only file [fetch_world_bank_data] writes is the FDI/GDP file, and
    it writes it exactly when its first loop ends without an exception. *)
Lemma world_bank_files w s :
  files (snd (fetch_world_bank_data w s)) =
    match fst (fdi_loop w s) with
    | Ret fdi => <[fdi_path := JsonFile (fdi_gdp_data fdi)]> (files s)
    | Raise _ => files s
    end /\
  ticks (snd (fetch_world_bank_data w s)) = ticks s.
Proof.
  unfold fetch_world_bank_data. rewrite try_none.
  unfold world_bank_body, bind, json_dump, ret.
  destruct (fdi_loop_quiet w s) as [Hf Ht].
  destruct (fdi_loop w s) as [[fdi | e] s1]; simpl in *; [| done].
  match goal with |- context [indicators_loop w ?s'] =>
    destruct (indicators_loop_quiet w s') as [Hf' Ht'];
    destruct (indicators_loop w s') as [[d | e] s2]
  end; simpl in *; split; congruence.
Qed.

(** What a run of [main] does: every fetcher returns, and the four files
    of the aggregator are written over what the World Bank fetcher left. *)
Lemma main_run w s :
  exists wb imf fred,
    fst (fetch_world_bank_data w s) = Ret wb /\
    fst (fetch_imf_data w s) = Ret imf /\
    fst (fetch_fred_data w s) = Ret fred /\
    fst (main w s) = Ret tt /\
    let trade := trade_table (clock w (ticks s)) in
    let metrics := metrics_record (clock w (S (ticks s))) in
    let master := master_data (clock w (S (S (ticks s)))) wb imf trade fred metrics in
    files (snd (main w s)) =
      <["index.html" := TextFile index_content]>
        (<[metrics_path := JsonFile metrics]>
           (<[trade_blocs_path := JsonFile trade]>
              (<[primary_path := JsonFile master]>
                 (files (snd (fetch_world_bank_data w s)))))).
Proof.
  destruct (fetch_world_bank_data_run w s) as (wb & Hwb & _).
  destruct (fetch_imf_data_run w s) as (imf & Himf & _).
  destruct (fetch_fred_data_run w s) as (fred & Hfred & _).
  exists wb, imf, fred. do 3 (split; [done |]).
  unfold main, bind.
  destruct (world_bank_files w s) as [_ Ht1].
  destruct (fetch_world_bank_data w s) as [o1 s1]; simpl in *; subst o1.
  rewrite (stable_state _ w s s1 fetch_imf_data_stable) in Himf.
  destruct (fetch_imf_data_quiet w s1) as [Hf2 Ht2].
  destruct (fetch_imf_data w s1) as [o2 s2]; simpl in *; subst o2.
  unfold fetch_trade_agreements, calculate_fragmentation_metrics, bind,
    now_isoformat, ret. simpl.
  match goal with |- context [fetch_fred_data w ?s'] =>
    rewrite (stable_state _ w s s' fetch_fred_data_stable) in Hfred;
    destruct (fetch_fred_data_quiet w s') as [Hf3 Ht3];
    destruct (fetch_fred_data w s') as [o3 s3]
  end; simpl in *; subst o3.
  unfold json_dump, create_index_file, write_text. simpl.
  rewrite Ht3, Ht2, Ht1, Hf3, Hf2. done.
Qed.

(** The files of the aggregator after a run. *)
Lemma main_outputs w s :
  exists wb imf fred,
    fst (fetch_world_bank_data w s) = Ret wb /\
    fst (fetch_imf_data w s) = Ret imf /\
    fst (fetch_fred_data w s) = Ret fred /\
    let trade := trade_table (clock w (ticks s)) in
    let metrics := metrics_record (clock w (S (ticks s))) in
    files (snd (main w s)) !! primary_path =
      Some (JsonFile (master_data (clock w (S (S (ticks s)))) wb imf trade fred
                        metrics)) /\
    files (snd (main w s)) !! trade_blocs_path = Some (JsonFile trade) /\
    files (snd (main w s)) !! metrics_path = Some (JsonFile metrics) /\
    files (snd (main w s)) !! fdi_path =
      files (snd (fetch_world_bank_data w s)) !! fdi_path.
Proof.
  destruct (main_run w s) as (wb & imf & fred & Hwb & Himf & Hfred & _ & Hfiles).
  exists wb, imf, fred. do 3 (split; [done |]).
  simpl in *. rewrite Hfiles.
  repeat split;
    repeat (rewrite lookup_insert_ne by (by compute)); by rewrite ?lookup_insert_eq.
Qed.

Lemma py_or_fallback imf :
  imf = VNone \/ imf = fallback_shares -> py_or imf fallback_shares = fallback_shares.
Proof. by intros [-> | ->]. Qed.

(** ** Runs of the model *)

(** [round(2.675, 2) == 2.67], [round(0.125, 2) == 0.12] and
    [round(-0.001, 2) == -0.0] in Python. *)
Example round_below_tie : float_round2 2.675 = 2.67%float.
Proof. by vm_compute. Qed.

Example round_exact_tie : float_round2 0.125 = 0.12%float.
Proof. by vm_compute. Qed.

Example round_to_negative_zero : float_round2 (-0.001) = neg_zero.
Proof. by vm_compute. Qed.

(** [True], [1] and [1.0] are one key; ["1"] is another. *)
Example one_key :
  dict_set [(VBool true, VStr "a")] (VFloat 1) (VStr "b") = [(VBool true, VStr "b")] /\
  dict_set [(VInt 1, VStr "a")] (VStr "1") (VStr "b") =
    [(VInt 1, VStr "a"); (VStr "1", VStr "b")].
Proof. by vm_compute. Qed.

(** Without network the World Bank fetcher gives up at its first request,
    the IMF fetcher at its only one, and the FRED fetcher sends none. *)
Example offline_run :
  fst (fetch_world_bank_data Scenario.offline initial) = Ret VNone /\
  fst (fetch_imf_data Scenario.offline initial) = Ret VNone /\
  fst (fetch_fred_data Scenario.offline initial) = Ret VNone /\
  sent (snd (main Scenario.offline initial)) =
    [get_request
       (wb_base_url +:+ "country/US/indicator/BX.KLT.DINV.WD.GD.ZS" +:+
        "?format=json&per_page=100&date=2015:2024");
     imf_request] /\
  ticks (snd (main Scenario.offline initial)) = 4%nat.
Proof. by vm_compute. Qed.

Example online_run :
  fst (fetch_imf_data Scenario.online initial) = Ret fallback_shares /\
  sent (snd (fetch_fred_data Scenario.online initial)) =
    [fred_request "secret" "GEPUCURRENT"; fred_request "secret" "USEPUINDXD"] /\
  length (sent (snd (main Scenario.online initial))) = 10%nat /\
  files (snd (main Scenario.online initial)) !! "index.html" =
    Some (TextFile index_content).
Proof. by vm_compute. Qed.

Example garbled_imf_answer :
  fst (imf_body Scenario.imf_garbled initial) = Raise JSONDecodeError /\
  fst (fetch_imf_data Scenario.imf_garbled initial) = Ret VNone.
Proof. by vm_compute. Qed.

(** ** Properties of the pipeline *)

(** C10. Whatever the fetchers return (a value or absent, in any
    combination), [main] writes the primary file and the record in it has
    [metadata.status] equal to the string 'success'. *)
Theorem status_is_always_success (w : World) (s : State) :
  exists master,
    files (snd (main w s)) !! primary_path = Some (JsonFile master) /\
    get_path ["metadata"; "status"] master = Some (VStr "success").
Proof.
  destruct (main_outputs w s) as (wb & imf & fred & _ & _ & _ & Hp & _).
  eexists. split; [apply Hp | reflexivity].
Qed.

(** C1. When the World Bank, IMF and FRED fetchers all return absent,
    [main] still returns and writes the primary file; the record in it has
    [metadata.status] set, [currency_shares] equal to the six fallback
    shares, [world_bank_indicators] empty and
    [fragmentation_metrics.sanctions_count.total] equal to 3247. *)
Theorem all_fetchers_absent (w : World) (s : State) :
  fst (fetch_world_bank_data w s) = Ret VNone ->
  fst (fetch_imf_data w s) = Ret VNone ->
  fst (fetch_fred_data w s) = Ret VNone ->
  fst (main w s) = Ret tt /\
  exists master,
    files (snd (main w s)) !! primary_path = Some (JsonFile master) /\
    get_path ["metadata"; "status"] master = Some (VStr "success") /\
    get_path ["currency_shares"] master =
      Some (dict [("USD", VFloat 59.2); ("EUR", VFloat 20.1); ("CNY", VFloat 12.3);
                  ("JPY", VFloat 5.2); ("GBP", VFloat 4.9); ("Other", VFloat 8.3)]) /\
    get_path ["world_bank_indicators"] master = Some (dict []) /\
    get_path ["fragmentation_metrics"; "sanctions_count"; "total"] master =
      Some (VInt 3247).
Proof.
  intros Hwb Himf Hfred.
  split; [by destruct (main_run w s) as (? & ? & ? & _ & _ & _ & ? & _) |].
  destruct (main_outputs w s) as (wb & imf & fred & Hwb' & Himf' & Hfred' & Hp & _).
  rewrite Hwb in Hwb'. rewrite Himf in Himf'. rewrite Hfred in Hfred'.
  simplify_eq. eexists. split; [apply Hp |]. by repeat split.
Qed.

(** C1 holds without network and without credential. *)
Lemma all_fetchers_absent_witness :
  fst (main Scenario.offline initial) = Ret tt /\
  exists master,
    files (snd (main Scenario.offline initial)) !! primary_path =
      Some (JsonFile master) /\
    get_path ["metadata"; "status"] master = Some (VStr "success") /\
    get_path ["currency_shares"] master =
      Some (dict [("USD", VFloat 59.2); ("EUR", VFloat 20.1); ("CNY", VFloat 12.3);
                  ("JPY", VFloat 5.2); ("GBP", VFloat 4.9); ("Other", VFloat 8.3)]) /\
    get_path ["world_bank_indicators"] master = Some (dict []) /\
    get_path ["fragmentation_metrics"; "sanctions_count"; "total"] master =
      Some (VInt 3247).
Proof.
  apply (all_fetchers_absent Scenario.offline initial); vm_compute; reflexivity.
Defined.

(** What the [try] block of [fetch_imf_data] ends with, read off the
    answer of the endpoint. *)
Lemma imf_body_outcome w s :
  fst (imf_body w s) =
    match http w imf_request with
    | Fails e => Raise e
    | Responds resp =>
        if ok resp then
          match json_body resp with
          | None => Raise JSONDecodeError
          | Some data =>
              if container data then Ret fallback_shares else Raise TypeError
          end
        else Ret VNone
    end.
Proof.
  unfold imf_body, bind, requests_get, response_json, lift, ret.
  destruct (http w imf_request) as [resp | e]; [| done].
  destruct (ok resp); [| done].
  destruct (json_body resp) as [data |]; [| done].
  destruct data; simpl; try done;
    by match goal with |- context [if ?b then _ else _] => destruct b end.
Qed.

Lemma fetch_imf_data_outcome w s :
  fst (fetch_imf_data w s) =
    match fst (imf_body w s) with
    | Ret v => Ret v
    | Raise _ => Ret VNone
    end.
Proof.
  unfold fetch_imf_data. rewrite try_none.
  by destruct (imf_body w s) as [[v | e] s'].
Qed.

(** C5, as stated, fails: when the IMF endpoint answers with a status that
    is not a success and a body that cannot be parsed, no exception occurs
    in the fetcher, and it returns absent, not the fallback shares. *)
Lemma unavailable_imf_returns_absent_without_exception :
  http Cases.imf_unavailable imf_request =
    Responds {| ok := false; json_body := None |} /\
  fst (imf_body Cases.imf_unavailable initial) = Ret VNone /\
  fst (fetch_imf_data Cases.imf_unavailable initial) = Ret VNone /\
  fst (fetch_imf_data Cases.imf_unavailable initial) <> Ret fallback_shares.
Proof. by vm_compute. Qed.

(** C5, amended. The IMF fetcher returns the six fallback shares exactly
    when the endpoint answers with a success status and a JSON body that
    is an object, an array or a string (nothing is read out of the
    payload).  On a status that is not a success it returns absent and no
    exception occurs.  When an exception occurs (the transport fails, the
    body is no JSON, or it is a JSON number, boolean or null, which
    cannot be searched) the fetcher catches it and returns absent.  In
    every case the aggregator puts the same six shares into
    [currency_shares] of the record it writes. *)
Theorem currency_shares_always_fallback (w : World) (s : State) :
  (fst (fetch_imf_data w s) = Ret fallback_shares <->
   exists resp data,
     http w imf_request = Responds resp /\ ok resp = true /\
     json_body resp = Some data /\ container data = true) /\
  (forall resp,
      http w imf_request = Responds resp -> ok resp = false ->
      fst (imf_body w s) = Ret VNone /\ fst (fetch_imf_data w s) = Ret VNone) /\
  (forall e,
      http w imf_request = Fails e ->
      fst (imf_body w s) = Raise e /\ fst (fetch_imf_data w s) = Ret VNone) /\
  (forall resp,
      http w imf_request = Responds resp -> ok resp = true ->
      json_body resp = None ->
      fst (imf_body w s) = Raise JSONDecodeError /\
      fst (fetch_imf_data w s) = Ret VNone) /\
  (forall resp data,
      http w imf_request = Responds resp -> ok resp = true ->
      json_body resp = Some data -> container data = false ->
      fst (imf_body w s) = Raise TypeError /\
      fst (fetch_imf_data w s) = Ret VNone) /\
  (forall e, fst (imf_body w s) = Raise e -> fst (fetch_imf_data w s) = Ret VNone) /\
  exists imf master,
    fst (fetch_imf_data w s) = Ret imf /\
    (imf = VNone \/ imf = fallback_shares) /\
    files (snd (main w s)) !! primary_path = Some (JsonFile master) /\
    get_path ["currency_shares"] master =
      Some (dict [("USD", VFloat 59.2); ("EUR", VFloat 20.1); ("CNY", VFloat 12.3);
                  ("JPY", VFloat 5.2); ("GBP", VFloat 4.9); ("Other", VFloat 8.3)]).
Proof.
  split; [| split; [| split; [| split; [| split; [| split]]]]].
  - rewrite fetch_imf_data_outcome, imf_body_outcome.
    destruct (http w imf_request) as [resp | e];
      [| split; [done | by intros (? & ? & ? & _)]].
    destruct (ok resp) eqn:Hok;
      [| split; [done | intros (? & ? & ? & ? & _); congruence]].
    destruct (json_body resp) as [data |] eqn:Hjson;
      [| split; [done | intros (? & ? & ? & _ & ? & _); congruence]].
    destruct (container data) eqn:Hc.
    + split; [intros _; by eexists _, _ | done].
    + split; [done | intros (? & ? & ? & _ & ? & ?); congruence].
  - intros resp Hhttp Hok.
    rewrite fetch_imf_data_outcome, imf_body_outcome, Hhttp, Hok. done.
  - intros e Hhttp.
    rewrite fetch_imf_data_outcome, imf_body_outcome, Hhttp. done.
  - intros resp Hhttp Hok Hjson.
    rewrite fetch_imf_data_outcome, imf_body_outcome, Hhttp, Hok, Hjson. done.
  - intros resp data Hhttp Hok Hjson Hc.
    rewrite fetch_imf_data_outcome, imf_body_outcome, Hhttp, Hok, Hjson, Hc. done.
  - intros e He. by rewrite fetch_imf_data_outcome, He.
  - destruct (main_outputs w s) as (wb & imf & fred & _ & Himf & _ & Hp & _).
    destruct (fetch_imf_data_run w s) as (imf' & Himf' & Hcases).
    rewrite Himf in Himf'. simplify_eq.
    eexists imf', _. split; [done |]. split; [done |]. split; [apply Hp |].
    change (Some (py_or imf' fallback_shares) = Some fallback_shares).
    by rewrite py_or_fallback.
Qed.

(** C6. No fetcher lets an exception out: in every world and from every
    state each fetcher returns, with a dict or [None] (the IMF fetcher:
    the fallback shares or [None]); an exception raised inside a [try]
    block ends as [None]; the compiler of the trade table and the metrics
    calculator return as well, and so does [main]. *)
Theorem no_exception_leaves_a_fetcher (w : World) (s : State) :
  (exists v s', fetch_world_bank_data w s = (Ret v, s') /\
                (v = VNone \/ exists d, v = VDict d)) /\
  (exists v s', fetch_imf_data w s = (Ret v, s') /\
                (v = VNone \/ v = fallback_shares)) /\
  (exists v s', fetch_fred_data w s = (Ret v, s') /\
                (v = VNone \/ exists d, v = VDict d)) /\
  (exists v s', fetch_trade_agreements w s = (Ret v, s')) /\
  (forall wb trade, exists v s',
      calculate_fragmentation_metrics wb trade w s = (Ret v, s')) /\
  (forall e, fst (world_bank_body w s) = Raise e ->
             fst (fetch_world_bank_data w s) = Ret VNone) /\
  (forall e, fst (imf_body w s) = Raise e -> fst (fetch_imf_data w s) = Ret VNone) /\
  (forall e, fst (fred_body w s) = Raise e -> fst (fetch_fred_data w s) = Ret VNone) /\
  fst (main w s) = Ret tt.
Proof.
  repeat split.
  - destruct (fetch_world_bank_data_run w s) as (v & Hv & Hty).
    destruct (fetch_world_bank_data w s) as [o s']. simpl in Hv. subst o. eauto.
  - destruct (fetch_imf_data_run w s) as (v & Hv & Hty).
    destruct (fetch_imf_data w s) as [o s']. simpl in Hv. subst o. eauto.
  - destruct (fetch_fred_data_run w s) as (v & Hv & Hty).
    destruct (fetch_fred_data w s) as [o s']. simpl in Hv. subst o. eauto.
  - by eexists _, _.
  - intros wb trade. by eexists _, _.
  - intros e He. unfold fetch_world_bank_data. rewrite try_none.
    by destruct (world_bank_body w s) as [[v | e'] s'].
  - intros e He. unfold fetch_imf_data. rewrite try_none.
    by destruct (imf_body w s) as [[v | e'] s'].
  - intros e He. unfold fetch_fred_data. rewrite try_none.
    by destruct (fred_body w s) as [[v | e'] s'].
  - by destruct (main_run w s) as (? & ? & ? & _ & _ & _ & ? & _).
Qed.

(** C9. The compiler of the trade table always returns, touching neither
    the files nor the network (it reads the clock once); the table [main]
    writes to the trade-blocs file has an "EU" bloc of exactly 10 distinct
    member codes, and integer trade shares for the six blocs and "Other"
    that sum to 100. *)
Theorem trade_blocs_always_compiled (w : World) (s : State) :
  fetch_trade_agreements w s =
    (Ret (trade_table (clock w (ticks s))),
     {| files := files s; sent := sent s; ticks := S (ticks s) |}) /\
  exists table shares,
    files (snd (main w s)) !! trade_blocs_path = Some (JsonFile table) /\
    get_path ["agreements"; "EU"] table = Some (strs eu_members) /\
    length eu_members = 10%nat /\
    NoDup eu_members /\
    get_path ["trade_shares"] table =
      Some (dict (map (fun kv => (fst kv, VInt (snd kv))) shares)) /\
    map fst shares =
      ["USMCA"; "EU"; "RCEP"; "ASEAN"; "Mercosur"; "AfCFTA"; "Other"] /\
    foldr Z.add 0 (map snd shares) = 100.
Proof.
  split; [done |].
  destruct (main_outputs w s) as (wb & imf & fred & _ & _ & _ & _ & Ht & _).
  eexists _, trade_shares. split; [apply Ht |].
  repeat split. by apply (bool_decide_unpack _).
Qed.

(** C8. Without the credential in the environment the FRED fetcher
    returns absent and leaves the state as it was: no request is sent.
    It sends a request only when the credential is there (and not empty),
    and when it then returns data it has sent exactly one GET for each of
    its two series, in order; with the credential it always sends the GET
    of the first series, and never more than one GET for a series. *)
Theorem fred_credential_precheck (w : World) (s : State) :
  (environ w "FRED_API_KEY" = None -> fetch_fred_data w s = (Ret VNone, s)) /\
  (sent (snd (fetch_fred_data w s)) <> sent s ->
   exists key, environ w "FRED_API_KEY" = Some key /\ key <> EmptyString) /\
  (forall key d,
      environ w "FRED_API_KEY" = Some key ->
      fst (fetch_fred_data w s) = Ret (VDict d) ->
      sent (snd (fetch_fred_data w s)) =
        (sent s ++ [fred_request key "GEPUCURRENT";
                    fred_request key "USEPUINDXD"])%list) /\
  (forall key,
      environ w "FRED_API_KEY" = Some key -> key <> EmptyString ->
      exists rest,
        sent (snd (fetch_fred_data w s)) =
          (sent s ++ fred_request key "GEPUCURRENT" :: rest)%list /\
        (rest = [] \/ rest = [fred_request key "USEPUINDXD"])).
Proof.
  unfold fetch_fred_data. rewrite try_none.
  unfold fred_body, bind, environ_get, ret.
  destruct (environ w "FRED_API_KEY") as [key |]; [| by repeat split].
  destruct (String.eqb_spec key EmptyString) as [-> | Hkey].
  { split; [done |]. split; [done |]. split.
    - intros key d _ Hd. by simpl in Hd.
    - by intros key [= <-]. }
  split; [done |]. split; [intros _; by exists key |].
  simpl. unfold fred_observations, bind, requests_get, response_json, lift, ret.
  split.
  - intros key' d [= <-].
    destruct (http w (fred_request key "GEPUCURRENT")) as [r1 | e1]; [| done].
    destruct (ok r1); [destruct (json_body r1); [| done] |]; simpl;
      (destruct (http w (fred_request key "USEPUINDXD")) as [r2 | e2]; [| done]);
      (destruct (ok r2); [destruct (json_body r2); [| done] |]); simpl;
      intros _; by rewrite <- app_assoc.
  - intros key' [= <-] _.
    destruct (http w (fred_request key "GEPUCURRENT")) as [r1 | e1];
      [| simpl; eauto].
    destruct (ok r1); [destruct (json_body r1); [| simpl; eauto] |]; simpl;
      (destruct (http w (fred_request key "USEPUINDXD")) as [r2 | e2]);
      try (destruct (ok r2); [destruct (json_body r2) |]); simpl;
      rewrite <- ?app_assoc; simpl; eauto.
Qed.

(** C3, as stated, fails: two invocations of the metrics calculator on the
    same inputs, one after the other in one run, return different records. *)
Lemma metrics_differ_between_invocations :
  let first := calculate_fragmentation_metrics VNone (dict []) Scenario.offline initial in
  let second :=
    calculate_fragmentation_metrics VNone (dict []) Scenario.offline (snd first) in
  fst first <> fst second.
Proof. vm_compute. discriminate. Qed.

(** C3, amended. The metrics calculator ignores its two inputs and always
    returns; the record it returns is [metrics_record] of the clock
    reading, so two invocations return records with the same field names
    and, apart from [timestamp] (the clock reading of the invocation), the
    same values; the year-keyed sequences have 6 and 5 entries. *)
Theorem metrics_fixed_apart_from_timestamp
    (w1 w2 : World) (s1 s2 : State) (wb1 trade1 wb2 trade2 : value) :
  exists m1 m2,
    fst (calculate_fragmentation_metrics wb1 trade1 w1 s1) = Ret m1 /\
    fst (calculate_fragmentation_metrics wb2 trade2 w2 s2) = Ret m2 /\
    calculate_fragmentation_metrics wb1 trade1 w1 s1 =
      calculate_fragmentation_metrics wb2 trade2 w1 s1 /\
    get_path ["timestamp"] m1 = Some (VStr (clock w1 (ticks s1))) /\
    get_path ["timestamp"] m2 = Some (VStr (clock w2 (ticks s2))) /\
    without "timestamp" m1 = without "timestamp" m2 /\
    keys m1 = keys m2 /\
    keys m1 = map VStr ["timestamp"; "fragmentation_index";
                        "regional_trade_percentage";
                        "supply_chain_regionalization";
                        "tech_decoupling_scores"; "sanctions_count"] /\
    (forall p, p ∈ [["supply_chain_regionalization"; "years"];
                    ["supply_chain_regionalization"; "regional"];
                    ["supply_chain_regionalization"; "global"]] ->
       exists l, get_path p m1 = Some (VList l) /\ get_path p m2 = Some (VList l) /\
                 length l = 6%nat) /\
    (forall p, p ∈ [["sanctions_count"; "by_year"]; ["sanctions_count"; "years"]] ->
       exists l, get_path p m1 = Some (VList l) /\ get_path p m2 = Some (VList l) /\
                 length l = 5%nat).
Proof.
  exists (metrics_record (clock w1 (ticks s1))), (metrics_record (clock w2 (ticks s2))).
  do 8 (split; [reflexivity |]).
  split; intros p Hp; repeat (apply elem_of_cons in Hp as [-> | Hp]);
    try (by apply elem_of_nil in Hp); by eexists.
Qed.

(** C4, as stated, fails: two runs of [main] against the same endpoints
    write master records that differ in three fields, not in one. *)
Lemma two_runs_differ_in_three_fields :
  let first := snd (main Scenario.online initial) in
  let second := snd (main Scenario.online first) in
  exists m1 m2,
    read_json primary_path first = Some m1 /\
    read_json primary_path second = Some m2 /\
    differ_at ["metadata"; "last_updated"] m1 m2 /\
    differ_at ["trade_blocs"; "updated"] m1 m2 /\
    differ_at ["fragmentation_metrics"; "timestamp"] m1 m2 /\
    ~ at_most_one_field_differs m1 m2.
Proof.
  destruct (main_outputs Scenario.online initial)
    as (wb & imf & fred & _ & _ & _ & H1 & _).
  destruct (main_outputs Scenario.online (snd (main Scenario.online initial)))
    as (wb' & imf' & fred' & _ & _ & _ & H2 & _).
  cbv zeta in *. unfold read_json. rewrite H1, H2. eexists _, _.
  split; [reflexivity |]. split; [reflexivity |].
  match goal with |- differ_at _ ?a ?b /\ _ => set (m1 := a); set (m2 := b) end.
  assert (differ_at ["metadata"; "last_updated"] m1 m2) as Hlast.
  { exists (VStr (Scenario.seconds 2)), (VStr (Scenario.seconds 6)).
    subst m1 m2. split; [by vm_compute |]. split; [by vm_compute |].
    split; [by vm_compute | by split]. }
  assert (differ_at ["trade_blocs"; "updated"] m1 m2) as Hupdated.
  { exists (VStr (Scenario.seconds 0)), (VStr (Scenario.seconds 4)).
    subst m1 m2. split; [by vm_compute |]. split; [by vm_compute |].
    split; [by vm_compute | by split]. }
  assert (differ_at ["fragmentation_metrics"; "timestamp"] m1 m2) as Hstamp.
  { exists (VStr (Scenario.seconds 1)), (VStr (Scenario.seconds 5)).
    subst m1 m2. split; [by vm_compute |]. split; [by vm_compute |].
    split; [by vm_compute | by split]. }
  do 3 (split; [assumption |]).
  intros Hone. specialize (Hone _ _ Hlast Hupdated). discriminate Hone.
Qed.

(** C4, amended. Two runs of [main] against endpoints that answer alike
    write master records that are identical once the three clock readings
    [metadata.last_updated], [trade_blocs.updated] and
    [fragmentation_metrics.timestamp] are erased; each of the three is the
    reading of the clock of its run, and the records are identical when
    the clocks read the same. *)
Theorem master_identical_apart_from_timestamps (w1 w2 : World) (s1 s2 : State) :
  same_responses w1 w2 ->
  exists m1 m2,
    read_json primary_path (snd (main w1 s1)) = Some m1 /\
    read_json primary_path (snd (main w2 s2)) = Some m2 /\
    erase_timestamps m1 = erase_timestamps m2 /\
    map (fun p => get_path p m1) timestamp_fields =
      [Some (VStr (clock w1 (S (S (ticks s1)))));
       Some (VStr (clock w1 (ticks s1)));
       Some (VStr (clock w1 (S (ticks s1))))] /\
    ((forall n, clock w1 (n + ticks s1) = clock w2 (n + ticks s2)) -> m1 = m2).
Proof.
  intros Hw.
  destruct (main_outputs w1 s1) as (wb & imf & fred & Hwb & Himf & Hfred & H1 & _).
  destruct (main_outputs w2 s2) as (wb' & imf' & fred' & Hwb' & Himf' & Hfred' & H2 & _).
  rewrite (fetch_world_bank_data_stable w1 w2 s1 s2 Hw) in Hwb.
  rewrite (fetch_imf_data_stable w1 w2 s1 s2 Hw) in Himf.
  rewrite (fetch_fred_data_stable w1 w2 s1 s2 Hw) in Hfred.
  rewrite Hwb in Hwb'. rewrite Himf in Himf'. rewrite Hfred in Hfred'.
  simplify_eq. unfold read_json. simpl in H1, H2. rewrite H1, H2.
  eexists _, _. split; [reflexivity |]. split; [reflexivity |].
  split; [reflexivity |]. split; [reflexivity |].
  intros Hclock.
  pose proof (Hclock 0%nat) as H0. pose proof (Hclock 1%nat) as H1'.
  pose proof (Hclock 2%nat) as H2'. simpl in H0, H1', H2'.
  by rewrite H0, H1', H2'.
Qed.

(** C4, amended, for two offline runs an hour apart. *)
Lemma master_identical_apart_from_timestamps_witness :
  exists m1 m2,
    read_json primary_path (snd (main Scenario.offline initial)) = Some m1 /\
    read_json primary_path (snd (main Scenario.offline_later initial)) = Some m2 /\
    erase_timestamps m1 = erase_timestamps m2 /\
    map (fun p => get_path p m1) timestamp_fields =
      [Some (VStr (clock Scenario.offline (S (S (ticks initial)))));
       Some (VStr (clock Scenario.offline (ticks initial)));
       Some (VStr (clock Scenario.offline (S (ticks initial))))] /\
    ((forall n, clock Scenario.offline (n + ticks initial) =
                clock Scenario.offline_later (n + ticks initial)) -> m1 = m2).
Proof.
  apply (master_identical_apart_from_timestamps
           Scenario.offline Scenario.offline_later initial initial).
  split; intros; reflexivity.
Defined.

(** C2, as stated, fails: when the World Bank requests fail in transport
    while the IMF and FRED endpoints answer, [main] returns but the
    FDI/GDP file is not written. *)
Lemma world_bank_failure_leaves_no_fdi_file :
  let w := Scenario.world_bank_down in
  fst (fetch_world_bank_data w initial) = Ret VNone /\
  fst (fetch_imf_data w initial) = Ret fallback_shares /\
  fst (fetch_fred_data w initial) <> Ret VNone /\
  fst (main w initial) = Ret tt /\
  files (snd (main w initial)) !! fdi_path = None.
Proof. by vm_compute. Qed.

(** C2, amended. Whatever fails in whichever fetcher, [main] returns and
    writes the primary file, the trade-blocs file and the metrics file.
    The FDI/GDP file is written by the World Bank fetcher when its loop
    over the countries ends without an exception (so no failure of the
    IMF or FRED fetcher, and none in the later World Bank requests, keeps
    it from being written); when that loop raises, the World Bank fetcher
    returns absent and the file is left as it was. *)
Theorem aggregator_files_always_written (w : World) (s : State) :
  fst (main w s) = Ret tt /\
  (exists master trade metrics,
      read_json primary_path (snd (main w s)) = Some master /\
      read_json trade_blocs_path (snd (main w s)) = Some trade /\
      read_json metrics_path (snd (main w s)) = Some metrics) /\
  files (snd (main w s)) !! fdi_path =
    match fst (fdi_loop w s) with
    | Ret fdi => Some (JsonFile (fdi_gdp_data fdi))
    | Raise _ => files s !! fdi_path
    end /\
  (forall e, fst (fdi_loop w s) = Raise e ->
             fst (fetch_world_bank_data w s) = Ret VNone).
Proof.
  split; [by destruct (main_run w s) as (? & ? & ? & _ & _ & _ & ? & _) |].
  destruct (main_outputs w s)
    as (wb & imf & fred & _ & _ & _ & Hp & Ht & Hm & Hfdi).
  cbv zeta in *. split; [| split].
  - unfold read_json. rewrite Hp, Ht, Hm. by eexists _, _, _.
  - rewrite Hfdi. destruct (world_bank_files w s) as [-> _].
    destruct (fst (fdi_loop w s)); [by rewrite lookup_insert_eq | done].
  - intros e He. unfold fetch_world_bank_data. rewrite try_none.
    unfold world_bank_body, bind.
    destruct (fdi_loop w s) as [[fdi | e'] s']; by simpl in *.
Qed.

(** What the loop body of the FDI observations does with an observation
    whose value is falsy, and with one whose value is truthy. *)
Lemma fdi_observation_dropped item values v w s :
  get item "value" = Ret v -> truthy v = false ->
  fdi_observation item values w s = (Ret values, s).
Proof.
  intros Hget Hv. unfold fdi_observation, bind, lift, ret.
  rewrite Hget. simpl. by rewrite Hv.
Qed.

Lemma fdi_observation_kept d values v rounded date w s :
  dict_lookup d (VStr "value") = Some v -> truthy v = true ->
  round2 v = Ret rounded ->
  dict_lookup d (VStr "date") = Some date -> hashable date = true ->
  fdi_observation (VDict d) values w s = (Ret (dict_set values date rounded), s).
Proof.
  intros Hv Ht Hr Hd Hh. unfold fdi_observation, bind, lift, ret, get, getitem, setitem.
  simpl. rewrite Hv. simpl. rewrite Ht, Hr, Hd. by rewrite Hh.
Qed.

(** C7. An observation that carries the value 0 is skipped by the loop
    over the FDI observations.  So when the World Bank fetcher runs on an
    answer with the observations 2020 -> 0, 2021 -> 1.7896416 and
    2022 -> null, the observation of 2021 is kept, rounded to 1.79 and
    keyed by its year in the FDI/GDP file, the observation of 2022 is
    filtered out, and so is the observation of 2020. *)
Theorem zero_valued_observation_is_dropped :
  (forall date values w s,
      fdi_observation (Scenario.observation date (VInt 0)) values w s =
        (Ret values, s)) /\
  let run := fetch_world_bank_data Scenario.online initial in
  Scenario.wb_answer =
    VList [dict [("page", VInt 1); ("pages", VInt 1)];
           VList [Scenario.observation "2020" (VInt 0);
                  Scenario.observation "2021" (VFloat 1.7896416);
                  Scenario.observation "2022" VNone]] /\
  (read_json fdi_path (snd run) ≫= get_path ["data"; "USA"; "values"]) =
    Some (dict [("2021", VFloat 1.79)]) /\
  (returned (fst run) ≫= get_path ["fdi_gdp_ratio"]) =
    Some (VList [Scenario.observation "2021" (VFloat 1.7896416)]).
Proof.
  split.
  - intros date values w s. by apply (fdi_observation_dropped _ _ (VInt 0)).
  - by vm_compute.
Qed.

(** * Further properties *)

(** ** Requests *)

Lemma sends_ret {A} w (a : A) : sends w (ret a) [].
Proof. intros s. exists []. simpl. by rewrite app_nil_r. Qed.

Lemma sends_lift {A} w (o : outcome A) : sends w (lift o) [].
Proof. intros s. exists []. simpl. by rewrite app_nil_r. Qed.

Lemma sends_requests_get w r : sends w (requests_get r) [r].
Proof.
  intros s. exists [r]. unfold requests_get. by destruct (http w r).
Qed.

Lemma sends_bind {A B} w (m : M A) (k : A -> M B) l1 l2 :
  sends w m l1 -> (forall a, sends w (k a) l2) -> sends w (bind m k) (l1 ++ l2).
Proof.
  intros Hm Hk s. unfold bind.
  destruct (Hm s) as (l1' & Hs & Hp & Hr).
  destruct (m w s) as [[a | e] s'] eqn:E; simpl in *.
  - rewrite (Hr a eq_refl) in *.
    destruct (Hk a s') as (l2' & Hs' & Hp' & Hr').
    exists (l1 ++ l2')%list. rewrite Hs', Hs, <- app_assoc.
    split; [done |]. split; [by apply prefix_app |].
    intros b Hb. by rewrite (Hr' b Hb).
  - exists l1'. split; [done |]. split; [by apply prefix_app_r | done].
Qed.

Lemma sends_for_each {A B} w (l : list A) (body : A -> B -> M B) (req : A -> Request) :
  (forall x acc, sends w (body x acc) [req x]) ->
  forall acc, sends w (for_each l body acc) (map req l).
Proof.
  intros Hbody. induction l as [| x l IH]; intros acc; simpl.
  - apply sends_ret.
  - apply (sends_bind w _ _ [req x]); [apply Hbody | apply IH].
Qed.

Lemma sends_eq {A} w (m : M A) l l' : sends w m l -> l = l' -> sends w m l'.
Proof. by intros H <-. Qed.

Lemma sends_silent {A} w (m : M A) :
  (forall s, sent (snd (m w s)) = sent s) -> sends w m [].
Proof. intros H s. exists []. rewrite H, app_nil_r. by split. Qed.

(** After a [try] whose handler sends nothing the requests are still a
    prefix; they are all there when the block returned. *)
Lemma sends_try w (body : M value) l s :
  sends w body l ->
  exists l',
    sent (snd (try_except body (fun _ => ret VNone) w s)) = (sent s ++ l')%list /\
    l' `prefix_of` l /\
    (forall v, fst (body w s) = Ret v -> l' = l).
Proof.
  intros Hb. rewrite try_none. destruct (Hb s) as (l' & Hs & Hp & Hr).
  exists l'. by destruct (body w s) as [[v | e] s'].
Qed.

Lemma inert_ret {A} (a : A) : inert (ret a).
Proof. by intros w s. Qed.

Lemma inert_lift {A} (o : outcome A) : inert (lift o).
Proof. by intros w s. Qed.

Lemma inert_bind {A B} (m : M A) (k : A -> M B) :
  inert m -> (forall a, inert (k a)) -> inert (bind m k).
Proof.
  intros Hm Hk w s. unfold bind. specialize (Hm w s).
  destruct (m w s) as [[a | e] s']; simpl in *; subst s'; [apply Hk | done].
Qed.

Lemma inert_for_each {A B} (l : list A) (body : A -> B -> M B) :
  (forall x acc, inert (body x acc)) -> forall acc, inert (for_each l body acc).
Proof.
  intros Hbody. induction l as [| x l IH]; intros acc; simpl.
  - apply inert_ret.
  - apply inert_bind; [apply Hbody | apply IH].
Qed.

Lemma inert_sends {A} w (m : M A) : inert m -> sends w m [].
Proof. intros H. apply sends_silent. intros s. by rewrite H. Qed.

#[local] Hint Resolve inert_ret inert_lift : py.

(** Splits a goal [inert m] along the structure of [m]. *)
Ltac inertness :=
  repeat first
    [ progress intros
    | apply inert_bind | apply inert_for_each
    | solve [auto with py]
    | match goal with
      | |- context [if ?b then _ else _] => destruct b
      end ].

Lemma fdi_observation_inert item values : inert (fdi_observation item values).
Proof. unfold fdi_observation. inertness. Qed.

Lemma valued_items_inert items : inert (valued_items items).
Proof. unfold valued_items. inertness. Qed.

Lemma fdi_country_sends w country acc :
  sends w (fdi_country wb_base_url country acc) [country_request country].
Proof.
  destruct country as [name code]. unfold fdi_country.
  apply (sends_bind w _ _ [_] []); [apply sends_requests_get |].
  intros response. destruct (ok response); [| apply sends_ret].
  apply (sends_bind w _ _ [] []); [apply sends_lift |]. intros result.
  apply (sends_bind w _ _ [] []); [apply sends_lift |]. intros n.
  destruct (1 <? n); [| apply sends_ret].
  apply (sends_bind w _ _ [] []); [apply sends_lift |]. intros obs.
  apply (sends_bind w _ _ [] []); [apply sends_lift |]. intros items.
  apply (sends_bind w _ _ [] []); [| intros; apply sends_ret].
  apply inert_sends, inert_for_each. intros. apply fdi_observation_inert.
Qed.

Lemma indicator_series_sends w entry acc :
  sends w (indicator_series wb_base_url entry acc) [indicator_request entry].
Proof.
  destruct entry as [name indicator]. unfold indicator_series.
  apply (sends_bind w _ _ [_] []); [apply sends_requests_get |].
  intros response. destruct (ok response); [| apply sends_ret].
  apply (sends_bind w _ _ [] []); [apply sends_lift |]. intros result.
  apply (sends_bind w _ _ [] []); [apply sends_lift |]. intros n.
  destruct (1 <? n); [| apply sends_ret].
  apply (sends_bind w _ _ [] []); [apply sends_lift |]. intros obs.
  apply (sends_bind w _ _ [] []); [apply sends_lift |]. intros items.
  apply (sends_bind w _ _ [] []); [| intros; apply sends_ret].
  apply inert_sends, valued_items_inert.
Qed.

Lemma world_bank_body_sends w : sends w world_bank_body world_bank_requests.
Proof.
  unfold world_bank_body, world_bank_requests.
  apply sends_bind; [apply sends_for_each, fdi_country_sends |]. intros fdi.
  apply (sends_bind w _ _ [] (map indicator_request indicators));
    [by apply sends_silent |]. intros _.
  eapply sends_eq; [| apply app_nil_r].
  apply sends_bind; [apply sends_for_each, indicator_series_sends |].
  intros data. apply sends_ret.
Qed.

Lemma imf_body_sends w : sends w imf_body [imf_request].
Proof.
  unfold imf_body.
  apply (sends_bind w _ _ [_] []); [apply sends_requests_get |].
  intros response. destruct (ok response); [| apply sends_ret].
  apply (sends_bind w _ _ [] []); [apply sends_lift |]. intros data.
  apply (sends_bind w _ _ [] []); [apply sends_lift |]. intros found.
  apply (sends_bind w _ _ [] []); [by destruct found; apply sends_ret |].
  intros _. apply sends_ret.
Qed.

Lemma fred_observations_sends w key entry acc :
  sends w (fred_observations key entry acc) [fred_request key (fst entry)].
Proof.
  destruct entry as [series_id name]. unfold fred_observations.
  apply (sends_bind w _ _ [_] []); [apply sends_requests_get |].
  intros response. destruct (ok response); [| apply sends_ret].
  apply (sends_bind w _ _ [] []); [apply sends_lift |]. intros body.
  apply sends_ret.
Qed.

Lemma sends_environ {A} w name (k : option string -> M A) l :
  sends w (k (environ w name)) l -> sends w (bind (environ_get name) k) l.
Proof. intros H s. apply H. Qed.

Lemma fred_body_sends w :
  sends w fred_body (fred_requests (environ w "FRED_API_KEY")).
Proof.
  unfold fred_body, fred_requests. apply sends_environ.
  destruct (environ w "FRED_API_KEY") as [key |]; [| by apply sends_ret].
  destruct (String.eqb key EmptyString); [by apply sends_ret |].
  eapply sends_eq; [| apply app_nil_r].
  apply sends_bind;
    [apply (sends_for_each w _ _ (fun entry => fred_request key (fst entry)));
     apply fred_observations_sends |].
  intros data. apply sends_ret.
Qed.

Lemma run_requests_NoDup api_key :
  NoDup (world_bank_requests ++ imf_request :: fred_requests api_key).
Proof.
  apply (NoDup_fmap_1 request_tag).
  destruct api_key as [key |]; simpl; [destruct (String.eqb key EmptyString) |];
    by apply (bool_decide_unpack _).
Qed.

Lemma prefix_is_sublist {A} (l1 l2 : list A) :
  l1 `prefix_of` l2 -> l1 `sublist_of` l2.
Proof. intros [k ->]. by apply sublist_inserts_r. Qed.

Lemma fetch_imf_data_sent w s :
  sent (snd (fetch_imf_data w s)) = (sent s ++ [imf_request])%list.
Proof.
  unfold fetch_imf_data. rewrite try_none.
  unfold imf_body, bind, requests_get, response_json, lift, ret.
  destruct (http w imf_request) as [resp | e]; [| done].
  destruct (ok resp); [| done].
  destruct (json_body resp) as [data |]; [| done].
  by destruct (str_in "values" data) as [[] | e].
Qed.


(** X2. A run of [main] sends at most ten requests and none of them twice
    (nothing is retried): the first few World Bank requests, then the IMF
    request, which is sent whatever happened before, then the first few
    FRED requests the credential allows. *)
Theorem run_requests (w : World) (s : State) :
  exists lw lf,
    sent (snd (main w s)) = (sent s ++ lw ++ imf_request :: lf)%list /\
    lw `prefix_of` world_bank_requests /\
    lf `prefix_of` fred_requests (environ w "FRED_API_KEY") /\
    NoDup (lw ++ imf_request :: lf) /\
    (length (lw ++ imf_request :: lf) <= 10)%nat.
Proof.
  unfold main, bind.
  destruct (sends_try w world_bank_body _ s (world_bank_body_sends w))
    as (lw & Hs1 & Hp1 & _).
  destruct (fetch_world_bank_data_run w s) as (wb & Hwb & _).
  fold fetch_world_bank_data in Hs1.
  destruct (fetch_world_bank_data w s) as [o1 s1]; simpl in *; subst o1.
  pose proof (fetch_imf_data_sent w s1) as Hs2.
  destruct (fetch_imf_data_run w s1) as (imf & Himf & _).
  destruct (fetch_imf_data w s1) as [o2 s2]; simpl in *; subst o2.
  unfold fetch_trade_agreements, calculate_fragmentation_metrics, bind,
    now_isoformat, ret. simpl.
  match goal with |- context [fetch_fred_data w ?s'] =>
    destruct (sends_try w fred_body _ s' (fred_body_sends w)) as (lf & Hs3 & Hp3 & _);
    fold fetch_fred_data in Hs3;
    destruct (fetch_fred_data_run w s') as (fred & Hfred & _);
    destruct (fetch_fred_data w s') as [o3 s3]
  end; simpl in *; subst o3.
  exists lw, lf. rewrite Hs3, Hs2, Hs1, <- !app_assoc. simpl.
  split; [done |]. split; [done |]. split; [done |].
  assert ((lw ++ imf_request :: lf)%list `sublist_of`
          (world_bank_requests ++
           imf_request :: fred_requests (environ w "FRED_API_KEY"))%list) as Hsub.
  { apply sublist_app; [by apply prefix_is_sublist |].
    apply sublist_skip. by apply prefix_is_sublist. }
  split; [by eapply sublist_NoDup; [| apply Hsub]; apply run_requests_NoDup |].
  apply sublist_length in Hsub. etrans; [apply Hsub |].
  rewrite length_app. simpl.
  destruct (environ w "FRED_API_KEY") as [key |]; simpl;
    [destruct (String.eqb key EmptyString) |]; simpl; lia.
Qed.

(** ** The IMF fetcher *)

(** X3. The IMF fetcher sends its one request in every run, writes no file
    and does not read the clock.  It returns the fallback shares exactly
    when the endpoint answers with a success status and a JSON body that
    is an object, an array or a string, and absent in every other case. *)
Theorem imf_fetch_characterised (w : World) (s : State) :
  sent (snd (fetch_imf_data w s)) = (sent s ++ [imf_request])%list /\
  files (snd (fetch_imf_data w s)) = files s /\
  ticks (snd (fetch_imf_data w s)) = ticks s /\
  (fst (fetch_imf_data w s) = Ret fallback_shares <->
   exists resp data,
     http w imf_request = Responds resp /\ ok resp = true /\
     json_body resp = Some data /\ container data = true) /\
  (fst (fetch_imf_data w s) <> Ret fallback_shares ->
   fst (fetch_imf_data w s) = Ret VNone).
Proof.
  split; [apply fetch_imf_data_sent |].
  destruct (fetch_imf_data_quiet w s) as [Hf Ht]. do 2 (split; [done |]).
  split.
  - unfold fetch_imf_data. rewrite try_none.
    unfold imf_body, bind, requests_get, response_json, lift, ret.
    destruct (http w imf_request) as [resp | e]; simpl;
      [| split; [done | by intros (? & ? & ? & _)]].
    destruct (ok resp) eqn:Hok; simpl;
      [| split; [done | intros (? & ? & ? & ? & _); congruence]].
    destruct (json_body resp) as [data |] eqn:Hjson; simpl;
      [| split; [done | intros (? & ? & ? & _ & ? & _); congruence]].
    destruct data; simpl;
      try (split; [done | intros (? & ? & ? & _ & ? & ?); by simplify_eq]);
      try (split; [intros _; by eexists _, _ | done]);
      match goal with |- context [if ?b then _ else _] => destruct b end;
      (split; [intros _; by eexists _, _ | done]).
  - intros Hne. destruct (fetch_imf_data_run w s) as (v & Hv & [-> | ->]); done.
Qed.

(** ** The loops of the World Bank fetcher *)

Lemma for_each_raises {A B} (l : list A) (body : A -> B -> M B) w x :
  x ∈ l ->
  (forall acc s, exists e s', body x acc w s = (Raise e, s')) ->
  forall acc s, exists e s', for_each l body acc w s = (Raise e, s').
Proof.
  intros Hx Hbody. induction l as [| y l IH]; [by apply elem_of_nil in Hx |].
  intros acc s. simpl. unfold bind.
  apply elem_of_cons in Hx as [<- | Hx].
  - destruct (Hbody acc s) as (e & s' & ->). eauto.
  - destruct (body y acc w s) as [[acc' | e] s']; [by apply IH | eauto].
Qed.

Lemma fdi_observation_malformed item acc w s :
  malformed_observation item = true ->
  exists e, fdi_observation item acc w s = (Raise e, s).
Proof.
  unfold malformed_observation, fdi_observation, bind, lift, ret, get, getitem,
    setitem.
  destruct item as [| | | | | | d]; simpl; try by eexists.
  destruct (dict_lookup d (VStr "value")) as [v |]; simpl; [| done].
  destruct (truthy v); simpl; [| done].
  destruct (round2 v) as [r | e]; simpl; [| by eexists].
  destruct (dict_lookup d (VStr "date")) as [date |]; simpl; [| by eexists].
  destruct (hashable date); simpl; [done | by eexists].
Qed.

Lemma fdi_observation_wellformed item acc w s :
  malformed_observation item = false ->
  exists acc', fdi_observation item acc w s = (Ret acc', s).
Proof.
  unfold malformed_observation, fdi_observation, bind, lift, ret, get, getitem,
    setitem.
  destruct item as [| | | | | | d]; simpl; try done.
  destruct (dict_lookup d (VStr "value")) as [v |]; simpl; [| by eexists].
  destruct (truthy v); simpl; [| by eexists].
  destruct (round2 v) as [r | e]; simpl; [| done].
  destruct (dict_lookup d (VStr "date")) as [date |]; simpl; [| done].
  destruct (hashable date); simpl; [by eexists | done].
Qed.

Lemma observations_loop_raises items acc w s :
  (exists e, fst (for_each items fdi_observation acc w s) = Raise e) <->
  existsb malformed_observation items = true.
Proof.
  revert acc. induction items as [| item items IH]; intros acc; simpl.
  - split; [by intros [e ?] | done].
  - unfold bind. destruct (malformed_observation item) eqn:Hm; simpl.
    + destruct (fdi_observation_malformed item acc w s Hm) as (e & ->).
      split; [done | by exists e].
    + destruct (fdi_observation_wellformed item acc w s Hm) as (acc' & ->).
      apply IH.
Qed.

(** X4. The loop over the FDI observations of one answer raises exactly
    when one of the observations is malformed; it never touches the
    state. *)
Theorem observations_loop_raises_iff_malformed
    (items : list value) (acc : list (value * value)) (w : World) (s : State) :
  ((exists e, fst (for_each items fdi_observation acc w s) = Raise e) <->
   existsb malformed_observation items = true) /\
  snd (for_each items fdi_observation acc w s) = s.
Proof.
  split; [apply observations_loop_raises |].
  apply inert_for_each. intros. apply fdi_observation_inert.
Qed.

Lemma valued_items_from (items kept : list value) w s :
  for_each items
    (fun item kept =>
       let* present := lift (get item "value") in
       ret (if truthy present then (kept ++ [item])%list else kept))
    kept w s =
  if forallb is_dict items
  then (Ret (kept ++ List.filter has_value items)%list, s)
  else (Raise AttributeError, s).
Proof.
  revert kept. induction items as [| item items IH]; intros kept; simpl.
  - by rewrite app_nil_r.
  - unfold bind, lift, ret, has_value.
    destruct item as [| | | | | | d]; simpl; try done.
    rewrite IH. destruct (forallb is_dict items); [| done].
    destruct (truthy (default VNone (dict_lookup d (VStr "value")))); [| done].
    by rewrite <- app_assoc.
Qed.

(** X5. The list comprehension over the observations of an indicator keeps
    exactly the items whose value is truthy, in their order, when every
    item is a dict; one item that is no dict makes it raise.  It never
    touches the state. *)
Theorem indicator_items_are_filtered (items : list value) (w : World) (s : State) :
  valued_items items w s =
    if forallb is_dict items
    then (Ret (List.filter has_value items), s)
    else (Raise AttributeError, s).
Proof. unfold valued_items. by rewrite valued_items_from. Qed.

Lemma second_of_list a b rest :
  len (VList (a :: b :: rest)) = Ret (Z.of_nat (S (S (length rest)))) /\
  (1 <? Z.of_nat (S (S (length rest)))) = true /\
  getitem (VList (a :: b :: rest)) (VInt 1) = Ret b.
Proof.
  split; [done |]. split; [apply Z.ltb_lt; lia |].
  unfold getitem, seq_item, position. cbn [length Z.ltb Z.compare].
  replace (0 <=? 1) with true by done.
  replace (1 <? Z.of_nat (S (S (length rest)))) with true
    by (symmetry; apply Z.ltb_lt; lia).
  done.
Qed.

Lemma fdi_country_malformed w country resp envelope items rest acc s :
  http w (country_request country) = Responds resp -> ok resp = true ->
  json_body resp = Some (VList (envelope :: VList items :: rest)) ->
  existsb malformed_observation items = true ->
  exists e s', fdi_country wb_base_url country acc w s = (Raise e, s').
Proof.
  intros Hhttp Hok Hjson Hbad. destruct country as [name code].
  unfold fdi_country, bind at 1, requests_get.
  change (get_request _) with (country_request (name, code)).
  rewrite Hhttp, Hok. unfold bind at 1, response_json, lift. rewrite Hjson.
  destruct (second_of_list envelope (VList items) rest) as (Hlen & Hlt & Hget).
  unfold bind at 1. rewrite Hlen, Hlt.
  unfold bind at 1. rewrite Hget. unfold bind at 1. simpl iter. cbv iota beta.
  unfold bind at 1.
  destruct (observations_loop_raises items [] w
              {| files := files s; sent := sent s ++ [country_request (name, code)];
                 ticks := ticks s |}) as [_ Hraise].
  destruct (Hraise Hbad) as [e He].
  destruct (for_each items fdi_observation [] w _) as [[a | e'] s']; [done |].
  eauto.
Qed.

(** X6. One malformed observation in the answer for any of the three
    countries voids the whole World Bank fetcher: it returns absent, the
    FDI/GDP file is not written, and none of the four indicator requests
    is sent. *)
Theorem malformed_observation_voids_world_bank
    (w : World) (s : State) (country : string * string) (resp : Response)
    (envelope : value) (items rest : list value) :
  country ∈ countries ->
  http w (country_request country) = Responds resp -> ok resp = true ->
  json_body resp = Some (VList (envelope :: VList items :: rest)) ->
  existsb malformed_observation items = true ->
  fst (fetch_world_bank_data w s) = Ret VNone /\
  files (snd (fetch_world_bank_data w s)) = files s /\
  exists l,
    sent (snd (fetch_world_bank_data w s)) = (sent s ++ l)%list /\
    l `prefix_of` map country_request countries.
Proof.
  intros Hin Hhttp Hok Hjson Hbad.
  destruct (for_each_raises countries (fdi_country wb_base_url) w country Hin
              (fun acc s => fdi_country_malformed w country resp envelope items
                              rest acc s Hhttp Hok Hjson Hbad) [] s)
    as (e & s' & Hloop).
  fold fdi_loop in Hloop.
  destruct (world_bank_files w s) as [Hfiles _]. rewrite Hloop in Hfiles.
  destruct (sends_for_each w countries (fdi_country wb_base_url) country_request
              (fdi_country_sends w) [] s) as (l & Hs & Hp & _).
  fold fdi_loop in Hs. rewrite Hloop in Hs.
  unfold fetch_world_bank_data, world_bank_body in *. rewrite try_none in *.
  unfold bind in *. rewrite Hloop in *. simpl in *. eauto.
Qed.

(** X6 holds when the answer for China holds a text as a value. *)
Lemma malformed_observation_voids_world_bank_witness :
  fst (fetch_world_bank_data Cases.text_value initial) = Ret VNone /\
  files (snd (fetch_world_bank_data Cases.text_value initial)) = files initial /\
  exists l,
    sent (snd (fetch_world_bank_data Cases.text_value initial)) =
      (sent initial ++ l)%list /\
    l `prefix_of` map country_request countries.
Proof.
  apply (malformed_observation_voids_world_bank Cases.text_value initial
           ("CHN", "CN")
           (Scenario.answers (VList [Cases.envelope; VList Cases.text_items]))
           Cases.envelope Cases.text_items []);
    [by apply (bool_decide_unpack _) | reflexivity | reflexivity
    | reflexivity | reflexivity].
Defined.

Lemma after_requests_app s l1 l2 :
  after_requests (after_requests s l1) l2 = after_requests s (l1 ++ l2).
Proof. unfold after_requests. simpl. by rewrite <- app_assoc. Qed.

Lemma for_each_passes {A B} (l : list A) (body : A -> B -> M B) w
    (req : A -> Request) :
  (forall x, x ∈ l -> forall acc s,
      body x acc w s = (Ret acc, after_requests s [req x])) ->
  forall acc s, for_each l body acc w s = (Ret acc, after_requests s (map req l)).
Proof.
  induction l as [| x l IH]; intros Hbody acc s; simpl.
  - unfold ret, after_requests. rewrite app_nil_r. by destruct s.
  - unfold bind. rewrite Hbody by apply list_elem_of_here.
    rewrite IH by (intros; apply Hbody; by apply list_elem_of_further).
    by rewrite after_requests_app.
Qed.

Lemma fdi_country_passes w country acc s :
  passed_over (http w (country_request country)) = true ->
  fdi_country wb_base_url country acc w s =
    (Ret acc, after_requests s [country_request country]).
Proof.
  destruct country as [name code]. unfold passed_over, fdi_country, bind at 1,
    requests_get.
  change (get_request _) with (country_request (name, code)).
  destruct (http w (country_request (name, code))) as [resp | e]; [| done].
  destruct (ok resp); simpl; [| done].
  unfold bind, response_json, lift.
  destruct (json_body resp) as [body |]; [| done].
  destruct (len body) as [n | e]; [| done].
  intros Hn. apply Z.leb_le in Hn.
  replace (1 <? n) with false by (symmetry; apply Z.ltb_ge; lia). done.
Qed.

Lemma indicator_series_passes w entry acc s :
  passed_over (http w (indicator_request entry)) = true ->
  indicator_series wb_base_url entry acc w s =
    (Ret acc, after_requests s [indicator_request entry]).
Proof.
  destruct entry as [name indicator]. unfold passed_over, indicator_series,
    bind at 1, requests_get.
  change (get_request _) with (indicator_request (name, indicator)).
  destruct (http w (indicator_request (name, indicator))) as [resp | e]; [| done].
  destruct (ok resp); simpl; [| done].
  unfold bind, response_json, lift.
  destruct (json_body resp) as [body |]; [| done].
  destruct (len body) as [n | e]; [| done].
  intros Hn. apply Z.leb_le in Hn.
  replace (1 <? n) with false by (symmetry; apply Z.ltb_ge; lia). done.
Qed.

(** X7. When every World Bank request is answered with a status that is
    not a success, or with a JSON container of at most one element (the
    error envelope of the API), the fetcher raises nothing and stores
    nothing: it sends all seven requests, writes an FDI/GDP file without
    data and returns the empty dict, which [main] writes as the same
    empty [world_bank_indicators] it writes for an absent result. *)
Theorem passed_over_answers_give_empty_data (w : World) (s : State) :
  forallb (fun r => passed_over (http w r)) world_bank_requests = true ->
  fetch_world_bank_data w s =
    (Ret (VDict []),
     {| files := <[fdi_path := JsonFile (fdi_gdp_data [])]> (files s);
        sent := sent s ++ world_bank_requests;
        ticks := ticks s |}) /\
  (read_json primary_path (snd (main w s)) ≫= get_path ["world_bank_indicators"]) =
    Some (dict []).
Proof.
  intros Hall. rewrite forallb_forall in Hall.
  assert (fetch_world_bank_data w s =
          (Ret (VDict []),
           {| files := <[fdi_path := JsonFile (fdi_gdp_data [])]> (files s);
              sent := sent s ++ world_bank_requests;
              ticks := ticks s |})) as Hrun.
  { unfold fetch_world_bank_data. rewrite try_none.
    unfold world_bank_body, bind, fdi_loop, indicators_loop.
    rewrite (for_each_passes countries _ w country_request).
    2:{ intros c Hc acc s'. apply fdi_country_passes, Hall.
        unfold world_bank_requests. apply in_or_app. left.
        by apply in_map, list_elem_of_In. }
    unfold json_dump. cbv beta iota.
    rewrite (for_each_passes indicators _ w indicator_request).
    2:{ intros c Hc acc s'. apply indicator_series_passes, Hall.
        unfold world_bank_requests. apply in_or_app. right.
        by apply in_map, list_elem_of_In. }
    unfold ret, after_requests, world_bank_requests. simpl.
    by rewrite <- app_assoc. }
  split; [done |].
  destruct (main_outputs w s) as (wb & imf & fred & Hwb & _ & _ & Hp & _).
  rewrite Hrun in Hwb. simpl in Hwb. simplify_eq.
  unfold read_json. cbv zeta in Hp. by rewrite Hp.
Qed.

(** X7 holds when the World Bank answers with its error envelope. *)
Lemma passed_over_answers_give_empty_data_witness :
  fetch_world_bank_data Cases.error_envelopes initial =
    (Ret (VDict []),
     {| files := <[fdi_path := JsonFile (fdi_gdp_data [])]> (files initial);
        sent := sent initial ++ world_bank_requests;
        ticks := ticks initial |}) /\
  (read_json primary_path (snd (main Cases.error_envelopes initial)) ≫=
     get_path ["world_bank_indicators"]) = Some (dict []).
Proof.
  apply (passed_over_answers_give_empty_data Cases.error_envelopes initial).
  vm_compute. reflexivity.
Defined.

Lemma fdi_country_broken w country acc s :
  broken (http w (country_request country)) = true ->
  exists e s', fdi_country wb_base_url country acc w s = (Raise e, s').
Proof.
  destruct country as [name code]. unfold broken, fdi_country, bind at 1,
    requests_get.
  change (get_request _) with (country_request (name, code)).
  destruct (http w (country_request (name, code))) as [resp | e]; [| eauto].
  destruct (ok resp); simpl; [| done].
  unfold bind, response_json, lift.
  destruct (json_body resp) as [body |]; [| eauto].
  intros H. exfalso. apply negb_true_iff, bool_decide_eq_false in H. by apply H.
Qed.

Lemma indicator_series_broken w entry acc s :
  broken (http w (indicator_request entry)) = true ->
  exists e s', indicator_series wb_base_url entry acc w s = (Raise e, s').
Proof.
  destruct entry as [name indicator]. unfold broken, indicator_series, bind at 1,
    requests_get.
  change (get_request _) with (indicator_request (name, indicator)).
  destruct (http w (indicator_request (name, indicator))) as [resp | e]; [| eauto].
  destruct (ok resp); simpl; [| done].
  unfold bind, response_json, lift.
  destruct (json_body resp) as [body |]; [| eauto].
  intros H. exfalso. apply negb_true_iff, bool_decide_eq_false in H. by apply H.
Qed.

(** X8. The World Bank fetcher returns all or nothing: when one of its
    seven requests fails in transport, or is answered with a success
    status and a body that is no JSON, the fetcher returns absent, whatever
    the other six were answered. *)
Theorem world_bank_failure_discards_all (w : World) (s : State) :
  existsb (fun r => broken (http w r)) world_bank_requests = true ->
  fst (fetch_world_bank_data w s) = Ret VNone.
Proof.
  intros Hex. apply existsb_exists in Hex as (r & Hr & Hbroken).
  unfold fetch_world_bank_data. rewrite try_none.
  unfold world_bank_body, bind.
  unfold world_bank_requests in Hr. apply in_app_or in Hr as [Hr | Hr];
    apply in_map_iff in Hr as (x & <- & Hx); apply list_elem_of_In in Hx.
  - destruct (for_each_raises countries (fdi_country wb_base_url) w x Hx
                (fun acc s => fdi_country_broken w x acc s Hbroken) [] s)
      as (e & s' & Hloop).
    fold fdi_loop in Hloop. by rewrite Hloop.
  - destruct (fdi_loop w s) as [[fdi | e] s1]; [| done].
    unfold json_dump. cbv beta iota.
    match goal with |- context [indicators_loop w ?s'] =>
      destruct (for_each_raises indicators (indicator_series wb_base_url) w x Hx
                  (fun acc s => indicator_series_broken w x acc s Hbroken) [] s')
        as (e & s2 & Hloop)
    end.
    fold indicators_loop in Hloop. by rewrite Hloop.
Qed.

(** X8 holds when only the last of the seven requests fails. *)
Lemma world_bank_failure_discards_all_witness :
  fst (fetch_world_bank_data Cases.exports_down initial) = Ret VNone.
Proof.
  apply (world_bank_failure_discards_all Cases.exports_down initial).
  vm_compute. reflexivity.
Defined.

(** ** The FRED fetcher *)

Lemma fred_observations_run w key entry acc s :
  fred_observations key entry acc w s =
    match http w (fred_request key (fst entry)) with
    | Fails e => (Raise e, after_requests s [fred_request key (fst entry)])
    | Responds resp =>
        if ok resp then
          match json_body resp with
          | Some body =>
              (Ret (dict_set acc (VStr (fst entry)) body),
               after_requests s [fred_request key (fst entry)])
          | None =>
              (Raise JSONDecodeError,
               after_requests s [fred_request key (fst entry)])
          end
        else (Ret acc, after_requests s [fred_request key (fst entry)])
    end.
Proof.
  destruct entry as [series_id name].
  unfold fred_observations, bind, requests_get, response_json, lift, ret. simpl.
  destruct (http w (fred_request key series_id)) as [resp | e]; [| done].
  destruct (ok resp); [| done]. by destruct (json_body resp).
Qed.

(** X9. With a credential, and when neither series is answered by a
    failure of the transport or by a body that is no JSON, the FRED
    fetcher returns a dict that holds, in the order of the series, the
    decoded body of each series answered with a success status, as it
    came; a series answered with another status is left out. *)
Theorem fred_bodies_are_passed_through (w : World) (s : State) (key : string) :
  environ w "FRED_API_KEY" = Some key -> key <> EmptyString ->
  existsb (fun entry => broken (http w (fred_request key (fst entry)))) fred_series
    = false ->
  fst (fetch_fred_data w s) =
    Ret (VDict (fred_entry "GEPUCURRENT" (http w (fred_request key "GEPUCURRENT")) ++
                fred_entry "USEPUINDXD" (http w (fred_request key "USEPUINDXD")))).
Proof.
  intros Hkey Hne Hok. unfold fetch_fred_data. rewrite try_none.
  unfold fred_body, bind at 1, environ_get. rewrite Hkey.
  apply String.eqb_neq in Hne. rewrite Hne.
  simpl in Hok. apply orb_false_iff in Hok as [H1 H2].
  apply orb_false_iff in H2 as [H2 _].
  unfold fred_series, for_each, fred_observations, bind, requests_get,
    response_json, lift, ret, broken, fred_entry in *.
  destruct (http w (fred_request key "GEPUCURRENT")) as [r1 | e1]; [| done].
  destruct (http w (fred_request key "USEPUINDXD")) as [r2 | e2]; [| done].
  destruct (ok r1), (ok r2); simpl in *;
    try (destruct (json_body r1) as [b1 |]; [| by exfalso]);
    try (destruct (json_body r2) as [b2 |]; [| by exfalso]);
    done.
Qed.

(** X9 holds when both series answer. *)
Lemma fred_bodies_are_passed_through_witness :
  fst (fetch_fred_data Scenario.online initial) =
    Ret (VDict (fred_entry "GEPUCURRENT"
                  (http Scenario.online (fred_request "secret" "GEPUCURRENT")) ++
                fred_entry "USEPUINDXD"
                  (http Scenario.online (fred_request "secret" "USEPUINDXD")))).
Proof.
  apply (fred_bodies_are_passed_through Scenario.online initial "secret");
    [reflexivity | discriminate | reflexivity].
Defined.

(** X10. The FRED fetcher returns all or nothing as well: with a
    credential, a failure of the transport or a body that is no JSON for
    one series makes it return absent, whatever the other series was
    answered. *)
Theorem fred_failure_discards_all (w : World) (s : State) (key : string) :
  environ w "FRED_API_KEY" = Some key -> key <> EmptyString ->
  existsb (fun entry => broken (http w (fred_request key (fst entry)))) fred_series
    = true ->
  fst (fetch_fred_data w s) = Ret VNone.
Proof.
  intros Hkey Hne Hex. unfold fetch_fred_data. rewrite try_none.
  unfold fred_body, bind at 1, environ_get. rewrite Hkey.
  apply String.eqb_neq in Hne. rewrite Hne.
  apply existsb_exists in Hex as (x & Hx & Hbroken). apply list_elem_of_In in Hx.
  unfold bind.
  destruct (for_each_raises fred_series (fred_observations key) w x Hx) with
    (acc := @nil (value * value)) (s := s) as (e & s' & ->); [| done].
  intros acc s0. rewrite fred_observations_run. unfold broken in Hbroken.
  destruct (http w (fred_request key (fst x))) as [resp | e]; [| eauto].
  destruct (ok resp); [| done]. destruct (json_body resp); [| eauto].
  by simpl in Hbroken.
Qed.

(** X10 holds when only the second series fails. *)
Lemma fred_failure_discards_all_witness :
  fst (fetch_fred_data Cases.second_series_down initial) = Ret VNone.
Proof.
  apply (fred_failure_discards_all Cases.second_series_down initial "secret");
    [reflexivity | discriminate | reflexivity].
Defined.

(** ** The records and the files of a run *)

(** X11. The master record of every run has the same six fields in the same
    order and the same four source names, whatever was fetched; its
    [trade_blocs] and [fragmentation_metrics] are the objects of the
    trade-blocs file and of the metrics file of the same run; and what the
    World Bank and FRED fetchers returned is written as it came, unless it
    is absent or empty, which are both written as an empty object. *)
Theorem master_record_layout (w : World) (s : State) :
  exists wb fred master,
    fst (fetch_world_bank_data w s) = Ret wb /\
    fst (fetch_fred_data w s) = Ret fred /\
    read_json primary_path (snd (main w s)) = Some master /\
    keys master =
      map VStr ["metadata"; "trade_blocs"; "currency_shares";
                "fragmentation_metrics"; "world_bank_indicators";
                "economic_uncertainty"] /\
    get_path ["metadata"; "sources"] master =
      Some (strs ["World Bank"; "IMF"; "FRED"; "Calculated"]) /\
    get_path ["trade_blocs"] master = read_json trade_blocs_path (snd (main w s)) /\
    get_path ["fragmentation_metrics"] master =
      read_json metrics_path (snd (main w s)) /\
    get_path ["world_bank_indicators"] master =
      Some (if truthy wb then wb else dict []) /\
    get_path ["economic_uncertainty"] master =
      Some (if truthy fred then fred else dict []).
Proof.
  destruct (main_outputs w s)
    as (wb & imf & fred & Hwb & _ & Hfred & Hp & Ht & Hm & _).
  cbv zeta in *. exists wb, fred. eexists.
  unfold read_json. rewrite Hp, Ht, Hm. by repeat split.
Qed.

(** X12. A run writes the redirect page to [index.html] and touches no file
    besides its five outputs: every other path holds after the run what it
    held before. *)
Theorem run_touches_only_its_files (w : World) (s : State) :
  files (snd (main w s)) !! "index.html" = Some (TextFile index_content) /\
  forall path, path ∉ output_paths ->
               files (snd (main w s)) !! path = files s !! path.
Proof.
  destruct (main_run w s) as (wb & imf & fred & _ & _ & _ & _ & Hfiles).
  cbv zeta in Hfiles. rewrite Hfiles. split; [by rewrite lookup_insert_eq |].
  intros path Hpath. unfold output_paths in Hpath.
  rewrite !not_elem_of_cons in Hpath. destruct Hpath as (H1 & H2 & H3 & H4 & H5 & _).
  rewrite !lookup_insert_ne by done.
  destruct (world_bank_files w s) as [-> _].
  destruct (fst (fdi_loop w s)); [by rewrite lookup_insert_ne | done].
Qed.

(** X13. The series of the metrics record fit together, at every
    invocation: the regional and the global shares have one entry for each
    year and sum to 100 in each, the regional trade percentage is the last
    regional share, the sanctions counts have one entry for each of their
    years, and the total is the last count. *)
Theorem metrics_series_fit_together (wb trade : value) (w : World) (s : State) :
  exists m years regional global by_year sanction_years,
    fst (calculate_fragmentation_metrics wb trade w s) = Ret m /\
    get_path ["supply_chain_regionalization"; "years"] m = Some (ints years) /\
    get_path ["supply_chain_regionalization"; "regional"] m = Some (ints regional) /\
    get_path ["supply_chain_regionalization"; "global"] m = Some (ints global) /\
    length regional = length years /\
    Forall2 (fun r g => r + g = 100) regional global /\
    get_path ["regional_trade_percentage"] m = VInt <$> last regional /\
    get_path ["sanctions_count"; "by_year"] m = Some (ints by_year) /\
    get_path ["sanctions_count"; "years"] m = Some (ints sanction_years) /\
    length by_year = length sanction_years /\
    get_path ["sanctions_count"; "total"] m = VInt <$> last by_year.
Proof.
  eexists _, _, _, _, _, _. split; [reflexivity |].
  do 3 (split; [reflexivity |]). split; [reflexivity |].
  split; [by repeat constructor |]. split; [reflexivity |].
  do 2 (split; [reflexivity |]). by split.
Qed.

(** X14. The trade table fits together, at every invocation: the blocs
    that have a trade share are the blocs that have members, in the same
    order, followed by "Other"; no bloc is named twice and none lists a
    member twice; every member is a code of three letters and every share
    is positive. *)
Theorem trade_table_fits_together (w : World) (s : State) :
  exists table blocs,
    fst (fetch_trade_agreements w s) = Ret table /\
    get_path ["agreements"] table =
      Some (dict (map (fun b => (fst b, strs (snd b))) blocs)) /\
    keys <$> get_path ["trade_shares"] table =
      Some (map VStr (map fst blocs ++ ["Other"])) /\
    NoDup (map fst blocs) /\
    Forall (fun b => NoDup (snd b) /\
                     Forall (fun code => String.length code = 3%nat) (snd b)) blocs /\
    Forall (fun kv => 0 < snd kv) trade_shares.
Proof.
  exists (trade_table (clock w (ticks s))),
    [("USMCA", ["USA"; "CAN"; "MEX"]);
     ("EU", eu_members);
     ("RCEP", ["CHN"; "JPN"; "KOR"; "AUS"; "NZL"; "SGP"; "MYS"; "THA"; "IDN"; "PHL"]);
     ("ASEAN", ["SGP"; "MYS"; "THA"; "IDN"; "PHL"; "VNM"; "MMR"; "KHM"; "LAO"; "BRN"]);
     ("Mercosur", ["BRA"; "ARG"; "URY"; "PRY"]);
     ("AfCFTA", ["NGA"; "EGY"; "ZAF"; "ETH"; "KEN"; "GHA"; "TZA"; "UGA"])].
  do 3 (split; [reflexivity |]).
  split; [by apply (bool_decide_unpack _) |].
  split; [by apply (bool_decide_unpack _) |].
  by apply (bool_decide_unpack _).
Qed.

(** ** The FDI/GDP data *)

Lemma key_eqb_str k name : key_eqb k (VStr name) = true -> k = VStr name.
Proof.
  destruct k as [| b | z | f | t | l | d]; simpl; try done.
  intros H. by apply String.eqb_eq in H as ->.
Qed.

Lemma dict_set_Forall (P : value * value -> Prop) d k v :
  Forall P d -> P (k, v) ->
  (forall k', key_eqb k' k = true -> P (k', v)) ->
  Forall P (dict_set d k v).
Proof.
  intros Hd Hnew Hold. induction Hd as [| [k' v'] d Hkv Hd IH]; simpl.
  - by constructor.
  - destruct (key_eqb k' k) eqn:E; constructor; auto.
Qed.

Lemma round2_number v r : round2 v = Ret r -> is_number r = true.
Proof. destruct v; simpl; intros ?; by simplify_eq. Qed.

Lemma fdi_observation_numbers item acc values w s s' :
  fdi_observation item acc w s = (Ret values, s') ->
  Forall (fun dv => is_number (snd dv) = true) acc ->
  Forall (fun dv => is_number (snd dv) = true) values.
Proof.
  unfold fdi_observation, bind, lift, ret, setitem.
  destruct (get item "value") as [present | e]; [| done].
  destruct (truthy present); [| by intros ?; simplify_eq].
  destruct (getitem item (VStr "value")) as [raw | e]; [| done].
  destruct (round2 raw) as [rounded | e] eqn:Hr; [| done].
  destruct (getitem item (VStr "date")) as [date | e]; [| done].
  destruct (hashable date); [| done].
  intros ? Hacc; simplify_eq. apply round2_number in Hr.
  by apply dict_set_Forall.
Qed.

Lemma observations_numbers items acc values w s s' :
  for_each items fdi_observation acc w s = (Ret values, s') ->
  Forall (fun dv => is_number (snd dv) = true) acc ->
  Forall (fun dv => is_number (snd dv) = true) values.
Proof.
  revert acc s. induction items as [| item items IH]; intros acc s; simpl.
  - unfold ret. intros ? ?. by simplify_eq.
  - unfold bind.
    destruct (fdi_observation item acc w s) as [[acc' | e] s1] eqn:E; [| done].
    intros Hloop Hacc. eapply IH; [apply Hloop |].
    by eapply fdi_observation_numbers.
Qed.

Lemma fdi_country_entries country acc fdi w s s' :
  country ∈ countries ->
  fdi_country wb_base_url country acc w s = (Ret fdi, s') ->
  Forall fdi_entry acc -> Forall fdi_entry fdi.
Proof.
  intros Hin. destruct country as [name code].
  unfold fdi_country, bind, requests_get, response_json, lift, ret.
  destruct (http w _) as [resp | e]; [| done].
  destruct (ok resp); [| by intros ?; simplify_eq].
  destruct (json_body resp) as [result |]; [| done].
  destruct (len result) as [n | e]; [| done].
  destruct (1 <? n); [| by intros ?; simplify_eq].
  destruct (getitem result (VInt 1)) as [observations | e]; [| done].
  destruct (iter observations) as [items | e]; [| done].
  destruct (for_each items fdi_observation [] w _) as [[values | e] s1] eqn:Hloop;
    [| done].
  intros ? Hacc; simplify_eq.
  apply observations_numbers in Hloop; [| by constructor].
  apply dict_set_Forall; [done | |].
  - by exists name, code, values.
  - intros k' Hk'. apply key_eqb_str in Hk' as ->. by exists name, code, values.
Qed.

Lemma fdi_loop_entries (l : list (string * string)) acc fdi w s s' :
  (forall country, country ∈ l -> country ∈ countries) ->
  for_each l (fdi_country wb_base_url) acc w s = (Ret fdi, s') ->
  Forall fdi_entry acc -> Forall fdi_entry fdi.
Proof.
  revert acc s. induction l as [| country l IH]; intros acc s Hl; simpl.
  - unfold ret. intros ? ?. by simplify_eq.
  - unfold bind.
    destruct (fdi_country wb_base_url country acc w s) as [[acc' | e] s1] eqn:E;
      [| done].
    intros Hloop Hacc. eapply IH; [| apply Hloop |].
    + intros c Hc. apply Hl. by apply list_elem_of_further.
    + eapply fdi_country_entries; [| apply E | done].
      apply Hl, list_elem_of_here.
Qed.

(** X15. Every entry of the FDI/GDP data is keyed by the three-letter code
    of one of the three countries and holds that same code as
    [country_code], the two-letter code as [country_name], and values that
    are all numbers: no null, text or other value is ever stored. *)
Theorem fdi_entries_are_labelled_numbers
    (w : World) (s : State) (fdi : list (value * value)) :
  fst (fdi_loop w s) = Ret fdi -> Forall fdi_entry fdi.
Proof.
  intros Hloop. destruct (fdi_loop w s) as [o s'] eqn:E. simpl in Hloop. subst o.
  by apply (fdi_loop_entries countries [] fdi w s s').
Qed.

(** X15 holds when the World Bank answers. *)
Lemma fdi_entries_are_labelled_numbers_witness :
  Forall fdi_entry
    (map (fun country =>
            (VStr (fst country),
             dict [("country_code", VStr (fst country));
                   ("country_name", VStr (snd country));
                   ("values", dict [("2021", VFloat 1.79)])]))
       countries).
Proof.
  apply (fdi_entries_are_labelled_numbers Scenario.online initial).
  vm_compute. reflexivity.
Defined.

Lemma for_each_app {A B} (l1 l2 : list A) (body : A -> B -> M B) acc w s :
  for_each (l1 ++ l2) body acc w s =
    bind (for_each l1 body acc) (for_each l2 body) w s.
Proof.
  revert acc s. induction l1 as [| x l1 IH]; intros acc s; simpl;
    [reflexivity |].
  unfold bind.
  destruct (body x acc w s) as [[acc' | e] s']; [| done].
  by rewrite IH.
Qed.

Lemma key_eqb_str_iff k name : key_eqb k (VStr name) = true <-> k = VStr name.
Proof.
  split; [apply key_eqb_str |]. intros ->. simpl. apply String.eqb_refl.
Qed.

(** Looking up a text key after [d[k] = v]. *)
Lemma dict_lookup_set_str d k v name :
  dict_lookup (dict_set d k v) (VStr name) =
    if key_eqb k (VStr name) then Some v else dict_lookup d (VStr name).
Proof.
  induction d as [| [k' v'] d IH]; simpl.
  - by destruct (key_eqb k (VStr name)).
  - destruct (key_eqb k' k) eqn:Ek; simpl.
    + destruct (key_eqb k (VStr name)) eqn:En.
      * apply key_eqb_str in En as ->. by rewrite Ek.
      * destruct (key_eqb k' (VStr name)) eqn:En'; [| done].
        apply key_eqb_str in En' as ->.
        destruct k; simpl in Ek; try done.
        simpl in En. apply String.eqb_eq in Ek as ->.
        by rewrite String.eqb_refl in En.
    + rewrite IH.
      destruct (key_eqb k' (VStr name)) eqn:En', (key_eqb k (VStr name)) eqn:En;
        try done.
      apply key_eqb_str in En' as ->. apply key_eqb_str in En as ->.
      simpl in Ek. by rewrite String.eqb_refl in Ek.
Qed.

(** X16. The last observation of a year sets the value of that year: after
    the loop has run over some observations and then over one more, whose
    value is truthy and a number and whose date is a text, the values hold
    for that date the rounded value of this last observation, whatever was
    stored for the date before, and for every other date what they held
    before. *)
Theorem last_observation_of_a_year_wins
    (items : list value) (item : value) (acc before : list (value * value))
    (w : World) (s : State) (date : string) (v rounded : value) :
  fst (for_each items fdi_observation acc w s) = Ret before ->
  get item "value" = Ret v -> truthy v = true -> round2 v = Ret rounded ->
  getitem item (VStr "date") = Ret (VStr date) ->
  exists values,
    fst (for_each (items ++ [item]) fdi_observation acc w s) = Ret values /\
    dict_lookup values (VStr date) = Some rounded /\
    forall other, other <> date ->
      dict_lookup values (VStr other) = dict_lookup before (VStr other).
Proof.
  intros Hbefore Hget Hv Hr Hdate.
  exists (dict_set before (VStr date) rounded).
  split; [| split].
  - rewrite for_each_app. unfold bind at 1.
    destruct (for_each items fdi_observation acc w s) as [o s']. simpl in Hbefore.
    subst o. simpl. unfold bind at 1.
    assert (getitem item (VStr "value") = Ret v) as Hraw.
    { destruct item as [| | | | | | d]; try done. simpl in *.
      destruct (dict_lookup d (VStr "value")) as [x |]; simpl in *; by simplify_eq. }
    unfold fdi_observation, bind, lift, ret, setitem.
    by rewrite Hget, Hv, Hraw, Hr, Hdate.
  - rewrite dict_lookup_set_str. simpl. by rewrite String.eqb_refl.
  - intros other Hne. rewrite dict_lookup_set_str. simpl.
    apply String.eqb_neq in Hne. by rewrite String.eqb_sym, Hne.
Qed.

(** X16 holds for two observations of the year 2021. *)
Lemma last_observation_of_a_year_wins_witness :
  exists values,
    fst (for_each ([Scenario.observation "2021" (VFloat 1.5);
                    Scenario.observation "2020" (VInt 3)] ++
                   [Scenario.observation "2021" (VFloat 2.675)])
           fdi_observation [] Scenario.offline initial) = Ret values /\
    dict_lookup values (VStr "2021") = Some (VFloat 2.67) /\
    forall other, other <> "2021" ->
      dict_lookup values (VStr other) =
        dict_lookup [(VStr "2021", VFloat 1.5); (VStr "2020", VInt 3)] (VStr other).
Proof.
  apply (last_observation_of_a_year_wins
           [Scenario.observation "2021" (VFloat 1.5);
            Scenario.observation "2020" (VInt 3)]
           (Scenario.observation "2021" (VFloat 2.675)) []
           [(VStr "2021", VFloat 1.5); (VStr "2020", VInt 3)]
           Scenario.offline initial "2021" (VFloat 2.675) (VFloat 2.67));
    vm_compute; reflexivity.
Defined.
